(** * AutoVibez release asset packager

  A shallow embedding of [scripts/package_release.py].

  The script builds ZIP archives that hold a [metadata.json] document and
  a [README.md] document, and writes a static installation guide.  The
  embedding follows the script method by method:

  - Python [str] values are Rocq strings.  The model of the builtins
    ([str.title], [json.dumps]) is exact on ASCII text; the non-ASCII
    characters of the installation guide are held in their UTF-8 encoding.
  - [datetime.now()] is a reading of the clock held by the world.
  - The file system is a finite map from canonical POSIX paths to nodes;
    [pathlib] paths are lists of parts, resolved against the tree part by
    part.  The methods run in a state-and-exception monad over the world.
  - A ZIP archive is the ordered list of the entries handed to
    [ZipFile.writestr].  Of the container encoding of [zipfile] only the
    CRC-32 checksum of an entry is modelled; DEFLATE streams and the other
    header fields lie below the model. *)

From Stdlib Require Import String Ascii List NArith Lia DecimalString.
From stdpp Require Import gmap strings list fin_maps.
#[local] Set Warnings "-register-all".
Import ListNotations.
Open Scope string_scope.

(** ** Python builtins used by the script *)

Module Py.

Definition dquote : ascii := "034"%char.
Definition backslash : ascii := "092"%char.
Definition LF : ascii := "010"%char.

Definition code (c : ascii) : N := N_of_ascii c.

Definition is_upper (c : ascii) : bool :=
  (65 <=? code c)%N && (code c <=? 90)%N.

Definition is_lower (c : ascii) : bool :=
  (97 <=? code c)%N && (code c <=? 122)%N.

Definition to_upper (c : ascii) : ascii :=
  if is_lower c then ascii_of_N (code c - 32) else c.

Definition to_lower (c : ascii) : ascii :=
  if is_upper c then ascii_of_N (code c + 32) else c.

(** [str.title()]: a cased character is upper-cased when the character
    before it is not cased, and lower-cased otherwise.  The cased
    characters here are the letters A to Z and a to z, so the function is
    that of Python on ASCII strings. *)
Fixpoint title_from (previous_is_cased : bool) (s : string) : string :=
  match s with
  | EmptyString => EmptyString
  | String c rest =>
      let mapped := if previous_is_cased then to_lower c else to_upper c in
      String mapped (title_from (is_upper c || is_lower c) rest)
  end.

Definition title (s : string) : string := title_from false s.

(** [sep.join(items)] *)
Definition join (sep : string) (items : list string) : string :=
  String.concat sep items.

(** [chr(10)] *)
Definition chr10 : string := String LF EmptyString.

(** A naive [datetime] value, as [datetime.now()] returns it. *)
Record datetime : Type := mkDatetime {
  year : N; month : N; day : N;
  hour : N; minute : N; second : N;
  microsecond : N
}.

Definition decimal (n : N) : string :=
  NilEmpty.string_of_uint (N.to_uint n).

Fixpoint zeros (n : nat) : string :=
  match n with
  | O => EmptyString
  | S k => String "0" (zeros k)
  end.

(** The [%0wd] conversion. *)
Definition zero_padded (width : nat) (n : N) : string :=
  let digits := decimal n in
  zeros (width - String.length digits) ++ digits.

(** [datetime.isoformat()] of a naive datetime: the fraction is printed
    only when the microsecond field is not zero. *)
Definition isoformat (d : datetime) : string :=
  zero_padded 4 (year d) ++ "-" ++ zero_padded 2 (month d) ++ "-"
    ++ zero_padded 2 (day d) ++ "T"
    ++ zero_padded 2 (hour d) ++ ":" ++ zero_padded 2 (minute d) ++ ":"
    ++ zero_padded 2 (second d)
    ++ (if (microsecond d =? 0)%N then EmptyString
        else "." ++ zero_padded 6 (microsecond d)).

End Py.

(** ** The [json] module: values, [dumps] with an indent, and a reader *)

Module Json.
Import Py.

(** The Python values the script serialises: strings, lists and
    dictionaries.  A dictionary keeps its items in insertion order. *)
Inductive pyval : Type :=
| PStr (s : string)
| PList (items : list pyval)
| PDict (items : list (string * pyval)).

Definition hex_digit (n : N) : ascii :=
  match String.get (N.to_nat n) "0123456789abcdef" with
  | Some c => c
  | None => "0"%char
  end.

(** One character of [py_encode_basestring_ascii]: everything outside
    the range space..tilde, the quote and the backslash are escaped. *)
Definition escape_char (c : ascii) : string :=
  if Ascii.eqb c dquote then String backslash (String dquote EmptyString)
  else if Ascii.eqb c backslash then String backslash (String backslash EmptyString)
  else if Ascii.eqb c "010" then "\n"
  else if Ascii.eqb c "013" then "\r"
  else if Ascii.eqb c "009" then "\t"
  else if Ascii.eqb c "008" then "\b"
  else if Ascii.eqb c "012" then "\f"
  else if (32 <=? code c)%N && (code c <=? 126)%N then String c EmptyString
  else "\u00" ++ String (hex_digit (code c / 16))
                   (String (hex_digit (code c mod 16)) EmptyString).

Fixpoint escape (s : string) : string :=
  match s with
  | EmptyString => EmptyString
  | String c rest => escape_char c ++ escape rest
  end.

Definition encode_str (s : string) : string :=
  String dquote (escape s ++ String dquote EmptyString).

Fixpoint spaces (n : nat) : string :=
  match n with
  | O => EmptyString
  | S k => String " " (spaces k)
  end.

Definition newline_indent (indent level : nat) : string :=
  String LF (spaces (indent * level)).

(** The pretty-printing encoder behind [json.dumps(obj, indent=indent)]:
    item separator [","] followed by a new line, key separator [": "]. *)
Fixpoint iterencode (indent level : nat) (v : pyval) : string :=
  match v with
  | PStr s => encode_str s
  | PList [] => "[]"
  | PList items =>
      "[" ++ newline_indent indent (S level)
        ++ join ("," ++ newline_indent indent (S level))
             (map (iterencode indent (S level)) items)
        ++ newline_indent indent level ++ "]"
  | PDict [] => "{}"
  | PDict items =>
      "{" ++ newline_indent indent (S level)
        ++ join ("," ++ newline_indent indent (S level))
             (map (fun kv => encode_str (fst kv) ++ ": "
                               ++ iterencode indent (S level) (snd kv)) items)
        ++ newline_indent indent level ++ "}"
  end.

Definition dumps (obj : pyval) (indent : nat) : string :=
  iterencode indent 0 obj.

(** *** A reader for JSON text

    The reader covers strings, arrays and objects, the fragment of JSON
    the script emits; every text it accepts is a JSON text. *)

Definition is_ws (c : ascii) : bool :=
  Ascii.eqb c " " || Ascii.eqb c "010" || Ascii.eqb c "013"
    || Ascii.eqb c "009".

Fixpoint skip_ws (s : string) : string :=
  match s with
  | EmptyString => EmptyString
  | String c rest => if is_ws c then skip_ws rest else s
  end.

Definition hex_value (c : ascii) : option N :=
  let n := code c in
  if (48 <=? n)%N && (n <=? 57)%N then Some (n - 48)%N
  else if (97 <=? n)%N && (n <=? 102)%N then Some (n - 87)%N
  else if (65 <=? n)%N && (n <=? 70)%N then Some (n - 55)%N
  else None.

Definition hex4 (a b c d : ascii) : option N :=
  match hex_value a, hex_value b, hex_value c, hex_value d with
  | Some x, Some y, Some z, Some w => Some (((x * 16 + y) * 16 + z) * 16 + w)%N
  | _, _, _, _ => None
  end.

Definition cons_char (c : ascii) (r : option (string * string))
  : option (string * string) :=
  match r with
  | Some (body, rest) => Some (String c body, rest)
  | None => None
  end.

Definition simple_escape (e : ascii) : option ascii :=
  if Ascii.eqb e dquote then Some dquote
  else if Ascii.eqb e backslash then Some backslash
  else if Ascii.eqb e "/" then Some "/"%char
  else if Ascii.eqb e "n" then Some "010"%char
  else if Ascii.eqb e "r" then Some "013"%char
  else if Ascii.eqb e "t" then Some "009"%char
  else if Ascii.eqb e "b" then Some "008"%char
  else if Ascii.eqb e "f" then Some "012"%char
  else None.

(** Reads a string body up to its closing quote; the opening quote has
    been consumed.  Raw control characters are refused, and so is an
    escaped code point that is not a character of the model. *)
Fixpoint scan_string (s : string) : option (string * string) :=
  match s with
  | EmptyString => None
  | String c rest =>
      if Ascii.eqb c dquote then Some (EmptyString, rest)
      else if Ascii.eqb c backslash then
        match rest with
        | EmptyString => None
        | String e rest1 =>
            if Ascii.eqb e "u" then
              match rest1 with
              | String h1 (String h2 (String h3 (String h4 rest2))) =>
                  match hex4 h1 h2 h3 h4 with
                  | Some n =>
                      if (n <? 256)%N
                      then cons_char (ascii_of_N n) (scan_string rest2)
                      else None
                  | None => None
                  end
              | _ => None
              end
            else
              match simple_escape e with
              | Some d => cons_char d (scan_string rest1)
              | None => None
              end
        end
      else if (code c <? 32)%N then None
      else cons_char c (scan_string rest)
  end.

Fixpoint parse_value (fuel : nat) (s : string) : option (pyval * string) :=
  match fuel with
  | O => None
  | S fuel' =>
      match skip_ws s with
      | EmptyString => None
      | String c rest =>
          if Ascii.eqb c dquote then
            match scan_string rest with
            | Some (body, rest1) => Some (PStr body, rest1)
            | None => None
            end
          else if Ascii.eqb c "[" then
            match skip_ws rest with
            | String "]" rest1 => Some (PList [], rest1)
            | _ =>
                match parse_elements fuel' rest with
                | Some (items, rest1) => Some (PList items, rest1)
                | None => None
                end
            end
          else if Ascii.eqb c "{" then
            match skip_ws rest with
            | String "}" rest1 => Some (PDict [], rest1)
            | _ =>
                match parse_members fuel' rest with
                | Some (items, rest1) => Some (PDict items, rest1)
                | None => None
                end
            end
          else None
      end
  end
with parse_elements (fuel : nat) (s : string)
  : option (list pyval * string) :=
  match fuel with
  | O => None
  | S fuel' =>
      match parse_value fuel' s with
      | None => None
      | Some (v, rest) =>
          match skip_ws rest with
          | String c rest1 =>
              if Ascii.eqb c "," then
                match parse_elements fuel' rest1 with
                | Some (items, rest2) => Some (v :: items, rest2)
                | None => None
                end
              else if Ascii.eqb c "]" then Some ([v], rest1)
              else None
          | EmptyString => None
          end
      end
  end
with parse_members (fuel : nat) (s : string)
  : option (list (string * pyval) * string) :=
  match fuel with
  | O => None
  | S fuel' =>
      match skip_ws s with
      | String c rest =>
          if Ascii.eqb c dquote then
            match scan_string rest with
            | None => None
            | Some (key, rest1) =>
                match skip_ws rest1 with
                | String c1 rest2 =>
                    if Ascii.eqb c1 ":" then
                      match parse_value fuel' rest2 with
                      | None => None
                      | Some (v, rest3) =>
                          match skip_ws rest3 with
                          | String c3 rest4 =>
                              if Ascii.eqb c3 "," then
                                match parse_members fuel' rest4 with
                                | Some (items, rest5) =>
                                    Some ((key, v) :: items, rest5)
                                | None => None
                                end
                              else if Ascii.eqb c3 "}"
                              then Some ([(key, v)], rest4)
                              else None
                          | EmptyString => None
                          end
                      end
                    else None
                | EmptyString => None
                end
            end
          else None
      | EmptyString => None
      end
  end.

(** The texts that start with a quote, a bracket or a brace, as every
    encoded value does. *)
Inductive opener : string -> Prop :=
| opener_quote tail : opener (String dquote tail)
| opener_bracket tail : opener (String "[" tail)
| opener_brace tail : opener (String "{" tail).

(** A bound on the fuel the reader needs for the text of a value. *)
Fixpoint weight (v : pyval) : nat :=
  match v with
  | PStr _ => 1
  | PList items => S (fold_right (fun x acc => S (weight x + acc)) 0 items)
  | PDict items =>
      S (fold_right (fun kv acc => S (weight (snd kv) + acc)) 0 items)
  end.

(** The text of the items of a non-empty list, up to the closing bracket,
    followed by [rest]. *)
Definition elements_text (indent level : nat) (xs : list pyval) (rest : string)
  : string :=
  join ("," ++ newline_indent indent (S level))
       (map (iterencode indent (S level)) xs)
    ++ newline_indent indent level ++ "]" ++ rest.

(** The text of the items of a non-empty dictionary, up to the closing
    brace, followed by [rest]. *)
Definition members_text (indent level : nat) (kvs : list (string * pyval))
    (rest : string) : string :=
  join ("," ++ newline_indent indent (S level))
       (map (fun kv => encode_str (fst kv) ++ ": "
                         ++ iterencode indent (S level) (snd kv)) kvs)
    ++ newline_indent indent level ++ "}" ++ rest.

Definition weight_elements (xs : list pyval) : nat :=
  fold_right (fun x acc => S (weight x + acc)) 0 xs.

Definition weight_members (kvs : list (string * pyval)) : nat :=
  fold_right (fun kv acc => S (weight (snd kv) + acc)) 0 kvs.

(** [json.loads]: one value, then only white space. *)
Definition loads (s : string) : option pyval :=
  match parse_value (2 * String.length s + 1) s with
  | Some (v, rest) =>
      match skip_ws rest with
      | EmptyString => Some v
      | String _ _ => None
      end
  | None => None
  end.

(** Structural induction for values, with the items of lists and
    dictionaries covered. *)
Section PyvalInduction.
Variable P : pyval -> Prop.
Hypothesis HStr : forall s, P (PStr s).
Hypothesis HList : forall items, Forall P items -> P (PList items).
Hypothesis HDict :
  forall items, Forall (fun kv => P (snd kv)) items -> P (PDict items).

Fixpoint pyval_induction (v : pyval) : P v :=
  match v with
  | PStr s => HStr s
  | PList items =>
      HList items
        ((fix go (l : list pyval) : Forall P l :=
            match l with
            | [] => List.Forall_nil P
            | x :: xs => List.Forall_cons P x xs (pyval_induction x) (go xs)
            end) items)
  | PDict items =>
      HDict items
        ((fix go (l : list (string * pyval))
            : Forall (fun kv => P (snd kv)) l :=
            match l with
            | [] => List.Forall_nil (fun kv => P (snd kv))
            | kv :: kvs =>
                List.Forall_cons (fun kv => P (snd kv)) kv kvs
                  (pyval_induction (snd kv)) (go kvs)
            end) items)
  end.
End PyvalInduction.

(** [d[key]] on the items of a dictionary. *)
Fixpoint lookup_key (key : string) (items : list (string * pyval))
  : option pyval :=
  match items with
  | [] => None
  | (k, v) :: rest => if String.eqb k key then Some v else lookup_key key rest
  end.

Definition keys (v : pyval) : list string :=
  match v with
  | PDict items => map fst items
  | _ => []
  end.

Definition get (key : string) (v : pyval) : option pyval :=
  match v with
  | PDict items => lookup_key key items
  | _ => None
  end.

End Json.


(** ** Paths, the file system and the effects of the script *)

Module Fs.
Import Py.

(** A [pathlib] path is the list of its parts; an absolute path has the
    part ["/"] first.  (The POSIX special case of exactly two leading
    slashes is not modelled.) *)
Abbreviation Path := (list string).

Fixpoint split_slash (s : string) : list string :=
  match s with
  | EmptyString => [EmptyString]
  | String c rest =>
      if Ascii.eqb c "/" then EmptyString :: split_slash rest
      else match split_slash rest with
           | [] => [String c EmptyString]
           | h :: t => String c h :: t
           end
  end.

Definition is_name (part : string) : bool :=
  negb (String.eqb part EmptyString) && negb (String.eqb part ".").

(** Empty parts and ["."] parts are dropped when a path is parsed;
    [".."] parts are kept. *)
Definition components (s : string) : list string :=
  List.filter is_name (split_slash s).

Definition is_absolute (s : string) : bool :=
  match s with
  | String "/" _ => true
  | _ => false
  end.

(** [Path(s)] *)
Definition parse_path (s : string) : Path :=
  (if is_absolute s then ["/"] else []) ++ components s.

(** [p / s] *)
Definition joinpath (p : Path) (s : string) : Path :=
  if is_absolute s then parse_path s else p ++ components s.

Inductive exn : Type :=
| FileNotFoundError
| FileExistsError
| IsADirectoryError
| NotADirectoryError
| ValueError.

Inductive outcome (A : Type) : Type :=
| Return (a : A)
| Raise (e : exn).
Arguments Return {A} a.
Arguments Raise {A} e.

Inductive compression : Type := ZIP_STORED | ZIP_DEFLATED.

(** What a regular file holds: text, or a ZIP archive given by the
    entries (archive name, data) in the order they were written. *)
Inductive content : Type :=
| Text (data : string)
| ZipArchive (method : compression) (entries : list (string * string)).

Inductive node : Type :=
| Dir
| File (c : content).

(** The world: the directory tree keyed by canonical absolute paths (the
    root is the empty list and always a directory), the working directory
    and the reading of the clock.  Symbolic links, permissions, quotas and
    the limits on the length of a name are not modelled. *)
Record World : Type := mkWorld {
  fs : gmap (list string) node;
  cwd : list string;
  clock : datetime
}.

Definition set_fs (files : gmap (list string) node) (w : World) : World :=
  {| fs := files; cwd := cwd w; clock := clock w |}.

Definition node_at (files : gmap (list string) node) (p : list string)
  : option node :=
  match p with
  | [] => Some Dir
  | _ => files !! p
  end.

(** Path resolution: every part is looked up in a directory that exists;
    [".."] steps to the parent. *)
Fixpoint walk (files : gmap (list string) node) (cur : list string)
    (parts : list string) : outcome (list string) :=
  match parts with
  | [] => Return cur
  | part :: rest =>
      match node_at files cur with
      | Some Dir =>
          if String.eqb part ".." then walk files (removelast cur) rest
          else walk files (cur ++ [part]) rest
      | Some (File _) => Raise NotADirectoryError
      | None => Raise FileNotFoundError
      end
  end.

Fixpoint has_slash (s : string) : bool :=
  match s with
  | EmptyString => false
  | String c rest => Ascii.eqb c "/" || has_slash rest
  end.

Fixpoint has_nul (s : string) : bool :=
  match s with
  | EmptyString => false
  | String c rest => Ascii.eqb c "000" || has_nul rest
  end.

(** The canonical path a [pathlib] path denotes in a world.  A path with
    an embedded null character is refused with [ValueError]. *)
Definition resolve (w : World) (p : Path) : outcome (list string) :=
  if existsb has_nul p then Raise ValueError
  else match p with
       | anchor :: rest =>
           if String.eqb anchor "/" then walk (fs w) [] rest
           else walk (fs w) (cwd w) p
       | [] => Return (cwd w)
       end.

(** The state-and-exception monad of the script: a raised exception keeps
    the world reached so far. *)
Definition M (A : Type) : Type := World -> outcome A * World.

Definition ret {A : Type} (a : A) : M A := fun w => (Return a, w).

Definition bind {A B : Type} (m : M A) (k : A -> M B) : M B :=
  fun w =>
    match m w with
    | (Return a, w1) => k a w1
    | (Raise e, w1) => (Raise e, w1)
    end.

Declare Scope py_scope.
Delimit Scope py_scope with py.
Notation "x <- c1 ;; c2" := (bind c1 (fun x => c2))
  (at level 100, c1 at next level, right associativity) : py_scope.
Notation "c1 ;; c2" := (bind c1 (fun _ => c2))
  (at level 100, right associativity) : py_scope.

(** [datetime.now()]: the reading of the clock of the world.  A world
    holds one reading; a call made later is a call in a world with another
    reading. *)
Definition datetime_now : M datetime := fun w => (Return (clock w), w).

(** [Path.mkdir(exist_ok=True)]: an existing directory is accepted, a
    missing parent is not created. *)
Definition mkdir_exist_ok (p : Path) : M unit := fun w =>
  match resolve w p with
  | Raise e => (Raise e, w)
  | Return target =>
      match node_at (fs w) target with
      | Some Dir => (Return tt, w)
      | Some (File _) => (Raise FileExistsError, w)
      | None => (Return tt, set_fs (<[target := Dir]> (fs w)) w)
      end
  end.

(** Opening a path for writing creates or truncates the file; the handle
    is the canonical path of the file. *)
Definition open_w (p : Path) (initial : content) : M (list string) := fun w =>
  match resolve w p with
  | Raise e => (Raise e, w)
  | Return target =>
      match node_at (fs w) target with
      | Some Dir => (Raise IsADirectoryError, w)
      | _ => (Return target, set_fs (<[target := File initial]> (fs w)) w)
      end
  end.

(** [zipfile.ZipFile(path, 'w', method)] *)
Definition ZipFile (p : Path) (method : compression) : M (list string) :=
  open_w p (ZipArchive method []).

(** [zipf.writestr(arcname, data)] appends one entry.  The text is kept
    as it is: its encoding as UTF-8, which [zipfile] refuses for a [str]
    with a lone surrogate, is below the model. *)
Definition writestr (zipf : list string) (arcname data : string) : M unit :=
  fun w =>
    match fs w !! zipf with
    | Some (File (ZipArchive method entries)) =>
        (Return tt,
         set_fs (<[zipf := File (ZipArchive method (entries ++ [(arcname, data)]))]>
                   (fs w)) w)
    | _ => (Raise ValueError, w)
    end.

(** [open(path, 'w')] *)
Definition open_text (p : Path) : M (list string) :=
  open_w p (Text EmptyString).

(** [f.write(data)] *)
Definition write (f : list string) (data : string) : M unit := fun w =>
  match fs w !! f with
  | Some (File (Text old)) =>
      (Return tt, set_fs (<[f := File (Text (old ++ data))]> (fs w)) w)
  | _ => (Raise ValueError, w)
  end.

(** Leaving a [with] block closes the file. *)
Definition close (f : list string) : M unit := ret tt.

End Fs.

(** ** The checksum of a ZIP entry *)

Module Zip.

(** CRC-32 as [zlib.crc32] computes it (reflected polynomial [0xEDB88320],
    all ones at both ends).  [zipfile] stores this checksum of the data of
    every entry in the header of the entry (bytes 14 to 17 of the local
    file header) and again in the central directory.  The characters of
    the text are taken as its bytes, which is exact for ASCII text. *)
Definition polynomial : N := 0xEDB88320.

Definition shift (crc : N) : N :=
  if N.testbit crc 0 then N.lxor (N.shiftr crc 1) polynomial
  else N.shiftr crc 1.

Definition update (crc : N) (c : ascii) : N :=
  Nat.iter 8 shift (N.lxor crc (N_of_ascii c)).

Fixpoint update_all (crc : N) (data : string) : N :=
  match data with
  | EmptyString => crc
  | String c rest => update_all (update crc c) rest
  end.

Definition crc32 (data : string) : N :=
  N.lxor (update_all 0xFFFFFFFF data) 0xFFFFFFFF.

End Zip.

(** ** The script *)

Module PackageRelease.
Import Py Json Fs.
Open Scope py_scope.

(** The [metadata] dictionary of [create_preset_package]. *)
Definition preset_metadata (name source_url description created : string)
  : pyval :=
  PDict [ ("name", PStr ("AutoVibez Presets - " ++ title name));
          ("description", PStr description);
          ("type", PStr "presets");
          ("source_url", PStr source_url);
          ("created", PStr created);
          ("version", PStr "1.0.0") ].

(** The [metadata] dictionary of [create_texture_package]. *)
Definition texture_metadata (name source_url description created : string)
  : pyval :=
  PDict [ ("name", PStr ("AutoVibez Textures - " ++ title name));
          ("description", PStr description);
          ("type", PStr "textures");
          ("source_url", PStr source_url);
          ("created", PStr created);
          ("version", PStr "1.0.0") ].

(** The [metadata] dictionary of [create_combined_package]. *)
Definition combined_metadata (packages : list string)
    (name description created : string) : pyval :=
  PDict [ ("name", PStr ("AutoVibez " ++ title name ++ " - Complete"));
          ("description", PStr description);
          ("type", PStr name);
          ("packages", PList (map PStr packages));
          ("created", PStr created);
          ("version", PStr "1.0.0") ].

(** The [readme_content] f-string of [create_preset_package]. *)
Definition preset_readme_content
  (name description source_url created : string) : string :=
  "# AutoVibez Presets - "
  ++ title name
  ++ "

"
  ++ description
  ++ "

## Installation

1. Extract this ZIP file
2. Copy the .milk files to your AutoVibez presets directory
3. Restart AutoVibez

## Directory Locations

**Windows:**
```
%APPDATA%\autovibez\presets\
```

**macOS:**
```
~/Library/Application Support/autovibez/presets/
```

**Linux:**
```
~/.local/share/autovibez/presets/
```

## Source

Downloaded from: "
  ++ source_url
  ++ "

Generated on: "
  ++ created
  ++ "
".

(** The [readme_content] f-string of [create_texture_package]. *)
Definition texture_readme_content
  (name description source_url created : string) : string :=
  "# AutoVibez Textures - "
  ++ title name
  ++ "

"
  ++ description
  ++ "

## Installation

1. Extract this ZIP file
2. Copy the texture files to your AutoVibez textures directory
3. Restart AutoVibez

## Directory Locations

**Windows:**
```
%APPDATA%\autovibez\textures\
```

**macOS:**
```
~/Library/Application Support/autovibez/textures/
```

**Linux:**
```
~/.local/share/autovibez/textures/
```

## Supported Formats

- PNG (recommended)
- JPG/JPEG
- BMP
- TGA

## Source

Downloaded from: "
  ++ source_url
  ++ "

Generated on: "
  ++ created
  ++ "
".

(** The [readme_content] f-string of [create_combined_package]. *)
Definition combined_readme_content
  (packages : list string) (name description created : string) : string :=
  "# AutoVibez "
  ++ title name
  ++ " - Complete Package

"
  ++ description
  ++ "

## Contents

This package contains:
"
  ++ join chr10 (map (fun pkg => "- " ++ pkg) packages)
  ++ "

## Installation

1. Extract this ZIP file
2. Copy the files to your AutoVibez "
  ++ name
  ++ " directory
3. Restart AutoVibez

## Directory Locations

**Windows:**
```
%APPDATA%\autovibez\"
  ++ name
  ++ "\
```

**macOS:**
```
~/Library/Application Support/autovibez/"
  ++ name
  ++ "/
```

**Linux:**
```
~/.local/share/autovibez/"
  ++ name
  ++ "/
```

Generated on: "
  ++ created
  ++ "
".

(** The [guide_content] literal of [create_installation_guide]. *)
Definition guide_content : string :=
  "# AutoVibez Asset Installation Guide

## 🎵 Quick Start

1. **Download Assets**: Get the preset and texture packages from the releases page
2. **Extract Files**: Extract the ZIP files to your AutoVibez assets directory
3. **Restart AutoVibez**: The app will automatically detect the new assets

## 📁 Asset Locations

### Windows
```
%APPDATA%\autovibez\presets\
%APPDATA%\autovibez\textures\
```

### macOS
```
~/Library/Application Support/autovibez/presets/
~/Library/Application Support/autovibez/textures/
```

### Linux
```
~/.local/share/autovibez/presets/
~/.local/share/autovibez/textures/
```

## 📦 Available Packages

### Preset Packages
- **autovibez-presets-cream-of-the-crop.zip**: ~10,000 curated presets
- **autovibez-presets-milkdrop-original.zip**: Classic Milkdrop presets
- **autovibez-presets-complete.zip**: All presets combined

### Texture Packages
- **autovibez-textures-milkdrop-textures.zip**: Essential textures
- **autovibez-textures-complete.zip**: All textures combined

## 🚀 Installation Steps

### Method 1: Automatic Installation
1. Download the asset packages from the releases page
2. Extract ZIP files to a temporary location
3. Copy presets to your presets directory
4. Copy textures to your textures directory
5. Restart AutoVibez

### Method 2: Manual Installation
1. Create the assets directories if they don't exist
2. Download and extract the asset packages
3. Copy .milk files to the presets directory
4. Copy texture files to the textures directory
5. Restart AutoVibez

## ✅ Verification

After installation, AutoVibez will show:
- Available presets in the help overlay (press H)
- New visual effects during playback
- Enhanced texture quality in presets

## 🆘 Troubleshooting

### No New Effects
- Restart AutoVibez after installing assets
- Check that files are in the correct directories
- Verify file permissions

### Missing Textures
- Ensure textures are in the correct directory
- Check that texture files are valid image formats
- Restart AutoVibez after adding textures

### Corrupted Files
- Re-download the asset packages
- Check file integrity with checksums
- Try extracting with different tools

## 📊 Package Information

Each package contains:
- **Presets**: .milk files for visual effects
- **Textures**: PNG, JPG, BMP, TGA image files
- **Metadata**: Package information and source details
- **README**: Installation and usage instructions

## 🔗 Sources

All assets are sourced from the ProjectM community:
- [Cream of the Crop Presets](https://github.com/projectM-visualizer/presets-cream-of-the-crop)
- [Milkdrop Original Presets](https://github.com/projectM-visualizer/presets-milkdrop-original)
- [Milkdrop Texture Pack](https://github.com/projectM-visualizer/presets-milkdrop-texture-pack)

## 📄 License

Assets are provided under their respective licenses. Please refer to the source repositories for license details.
".

Record ReleaseAssetPackager : Type := mkPackager {
  output_dir : Path
}.

(** [ReleaseAssetPackager(output_dir)] *)
Definition __init__ (output_dir : string) : M ReleaseAssetPackager :=
  let self := mkPackager (parse_path output_dir) in
  mkdir_exist_ok (PackageRelease.output_dir self) ;;
  ret self.

Definition create_preset_package (self : ReleaseAssetPackager)
    (name source_url description : string) : M Path :=
  let package_name := "autovibez-presets-" ++ name ++ ".zip" in
  let package_path := joinpath (output_dir self) package_name in
  now <- datetime_now ;;
  let created := isoformat now in
  let metadata := preset_metadata name source_url description created in
  zipf <- ZipFile package_path ZIP_DEFLATED ;;
  writestr zipf "metadata.json" (dumps metadata 2) ;;
  let readme_content :=
    preset_readme_content name description source_url created in
  writestr zipf "README.md" readme_content ;;
  close zipf ;;
  ret package_path.

Definition create_texture_package (self : ReleaseAssetPackager)
    (name source_url description : string) : M Path :=
  let package_name := "autovibez-textures-" ++ name ++ ".zip" in
  let package_path := joinpath (output_dir self) package_name in
  now <- datetime_now ;;
  let created := isoformat now in
  let metadata := texture_metadata name source_url description created in
  zipf <- ZipFile package_path ZIP_DEFLATED ;;
  writestr zipf "metadata.json" (dumps metadata 2) ;;
  let readme_content :=
    texture_readme_content name description source_url created in
  writestr zipf "README.md" readme_content ;;
  close zipf ;;
  ret package_path.

Definition create_combined_package (self : ReleaseAssetPackager)
    (packages : list string) (name description : string) : M Path :=
  let package_name := "autovibez-" ++ name ++ "-complete.zip" in
  let package_path := joinpath (output_dir self) package_name in
  now <- datetime_now ;;
  let created := isoformat now in
  let metadata := combined_metadata packages name description created in
  zipf <- ZipFile package_path ZIP_DEFLATED ;;
  writestr zipf "metadata.json" (dumps metadata 2) ;;
  let readme_content :=
    combined_readme_content packages name description created in
  writestr zipf "README.md" readme_content ;;
  close zipf ;;
  ret package_path.

Definition create_installation_guide (self : ReleaseAssetPackager) : M Path :=
  let guide_path := joinpath (output_dir self) "INSTALL_ASSETS.md" in
  f <- open_text guide_path ;;
  write f guide_content ;;
  close f ;;
  ret guide_path.

(** [main], without its printing: the five packages and the guide, in the
    order of the script.  The final listing only reads the directory. *)
Definition main : M unit :=
  packager <- __init__ "release-assets" ;;
  cream_package <- create_preset_package packager
    "cream-of-the-crop"
    "https://github.com/projectM-visualizer/presets-cream-of-the-crop"
    "~10,000 curated presets from the ProjectM community" ;;
  milkdrop_package <- create_preset_package packager
    "milkdrop-original"
    "https://github.com/projectM-visualizer/presets-milkdrop-original"
    "Classic Milkdrop presets from the original Winamp visualizer" ;;
  texture_package <- create_texture_package packager
    "milkdrop-textures"
    "https://github.com/projectM-visualizer/presets-milkdrop-texture-pack"
    "Essential textures for Milkdrop-style visual effects" ;;
  presets_complete <- create_combined_package packager
    ["Cream of the Crop"; "Milkdrop Original"]
    "presets"
    "Complete preset collection with all available presets" ;;
  textures_complete <- create_combined_package packager
    ["Milkdrop Textures"]
    "textures"
    "Complete texture collection for all visual effects" ;;
  guide <- create_installation_guide packager ;;
  ret tt.

End PackageRelease.


(** ** Observations used to state the properties *)

Module Spec.
Import Py Json Fs PackageRelease.

(** One call of a packaging operation, with its arguments. *)
Inductive packaging_call : Type :=
| Preset (name source_url description : string)
| Texture (name source_url description : string)
| Combined (packages : list string) (name description : string).

Definition invoke (self : ReleaseAssetPackager) (call : packaging_call)
  : M Path :=
  match call with
  | Preset name source_url description =>
      create_preset_package self name source_url description
  | Texture name source_url description =>
      create_texture_package self name source_url description
  | Combined packages name description =>
      create_combined_package self packages name description
  end.

Definition call_name (call : packaging_call) : string :=
  match call with
  | Preset name _ _ => name
  | Texture name _ _ => name
  | Combined _ name _ => name
  end.

(** The [package_name] f-string of each operation. *)
Definition package_name (call : packaging_call) : string :=
  match call with
  | Preset name _ _ => "autovibez-presets-" ++ name ++ ".zip"
  | Texture name _ _ => "autovibez-textures-" ++ name ++ ".zip"
  | Combined _ name _ => "autovibez-" ++ name ++ "-complete.zip"
  end.

(** The [metadata] dictionary of each operation, given the timestamp. *)
Definition metadata_of (call : packaging_call) (created : string) : pyval :=
  match call with
  | Preset name source_url description =>
      preset_metadata name source_url description created
  | Texture name source_url description =>
      texture_metadata name source_url description created
  | Combined packages name description =>
      combined_metadata packages name description created
  end.

(** The [readme_content] of each operation, given the timestamp. *)
Definition readme_of (call : packaging_call) (created : string) : string :=
  match call with
  | Preset name source_url description =>
      preset_readme_content name description source_url created
  | Texture name source_url description =>
      texture_readme_content name description source_url created
  | Combined packages name description =>
      combined_readme_content packages name description created
  end.

(** The entries an operation hands to [writestr], in order. *)
Definition archive_of (call : packaging_call) (created : string)
  : list (string * string) :=
  [ ("metadata.json", dumps (metadata_of call created) 2);
    ("README.md", readme_of call created) ].

(** What a later reader finds at a path. *)
Definition read_file (w : World) (p : Path) : option content :=
  match resolve w p with
  | Return target =>
      match fs w !! target with
      | Some (File c) => Some c
      | _ => None
      end
  | Raise _ => None
  end.

(** The entries of the archive at a path, [ZipFile(path).infolist()]. *)
Definition archive_entries (w : World) (p : Path)
  : option (list (string * string)) :=
  match read_file w p with
  | Some (ZipArchive _ entries) => Some entries
  | _ => None
  end.

Fixpoint find_entry (arcname : string) (entries : list (string * string))
  : option string :=
  match entries with
  | [] => None
  | (n, data) :: rest =>
      if String.eqb n arcname then Some data else find_entry arcname rest
  end.

(** [ZipFile(path).read(arcname)] *)
Definition read_entry (w : World) (p : Path) (arcname : string)
  : option string :=
  match archive_entries w p with
  | Some entries => find_entry arcname entries
  | None => None
  end.

(** [json.loads(ZipFile(path).read("metadata.json"))] *)
Definition read_metadata (w : World) (p : Path) : option pyval :=
  match read_entry w p "metadata.json" with
  | Some text => loads text
  | None => None
  end.

(** The value of the [type] key for each operation. *)
Definition type_of (call : packaging_call) : string :=
  match call with
  | Preset _ _ _ => "presets"
  | Texture _ _ _ => "textures"
  | Combined _ name _ => name
  end.

(** [text] is a fixed template with one hole, which the time stamp
    fills. *)
Definition stamped_template (text : string -> string) : Prop :=
  exists before after,
    forall now : datetime,
      text (isoformat now) = before ++ isoformat now ++ after.

(** The canonical path [t] lies below the directory [d]. *)
Definition below (d t : list string) : Prop :=
  exists rel, rel <> [] /\ t = (d ++ rel)%list.

End Spec.

(** ** Sample inputs *)

Module Sample.
Import Py Json Fs PackageRelease Spec.

Definition packager : ReleaseAssetPackager := mkPackager ["release-assets"].

Definition morning : datetime := mkDatetime 2024 3 9 7 5 0 1234.
Definition evening : datetime := mkDatetime 2024 3 9 19 30 15 0.

(** The working directory [/work] alone. *)
Definition bare_tree : gmap (list string) node :=
  <[ ["work"] := Dir ]> ∅.

(** The working directory with an empty output directory. *)
Definition tree : gmap (list string) node :=
  <[ ["work"; "release-assets"] := Dir ]> bare_tree.

(** The same, with a directory inside the output directory. *)
Definition nested_tree : gmap (list string) node :=
  <[ ["work"; "release-assets"; "autovibez-presets-x"] := Dir ]> tree.

Definition bare_world : World := mkWorld bare_tree ["work"] morning.
Definition world : World := mkWorld tree ["work"] morning.
Definition later_world : World := mkWorld tree ["work"] evening.
Definition nested_world : World := mkWorld nested_tree ["work"] morning.

Definition cream : packaging_call :=
  Preset "cream-of-the-crop"
    "https://github.com/projectM-visualizer/presets-cream-of-the-crop"
    "~10,000 curated presets from the ProjectM community".

Definition textures : packaging_call :=
  Texture "milkdrop-textures"
    "https://github.com/projectM-visualizer/presets-milkdrop-texture-pack"
    "Essential textures for Milkdrop-style visual effects".

Definition presets_complete : packaging_call :=
  Combined ["Cream of the Crop"; "Milkdrop Original"] "presets"
    "Complete preset collection with all available presets".

Definition extras : packaging_call :=
  Combined ["Cream of the Crop"] "extras" "Extra material".

Definition traversal : packaging_call :=
  Preset "x/../../y" "https://example.org" "A preset set".

End Sample.

(** ** Further observations: sequences of calls and the whole run *)

Module Behaviour.
Import Py Json Fs PackageRelease Spec.

(** The same tree and working directory under another clock reading. *)
Definition with_clock (c : datetime) (w : World) : World :=
  {| fs := fs w; cwd := cwd w; clock := c |}.

(** The [name] f-string of the descriptor of each operation. *)
Definition display_name (call : packaging_call) : string :=
  match call with
  | Preset name _ _ => "AutoVibez Presets - " ++ title name
  | Texture name _ _ => "AutoVibez Textures - " ++ title name
  | Combined _ name _ => "AutoVibez " ++ title name ++ " - Complete"
  end.

Definition description_of (call : packaging_call) : string :=
  match call with
  | Preset _ _ description => description
  | Texture _ _ description => description
  | Combined _ _ description => description
  end.


(** The operations of a list of calls, one after the other. *)
Fixpoint invoke_all (self : ReleaseAssetPackager)
    (calls : list packaging_call) : M unit :=
  match calls with
  | [] => ret tt
  | call :: rest => (_ <- invoke self call ;; invoke_all self rest)%py
  end.

(** The five packaging calls of [main], in its order. *)
Definition main_calls : list packaging_call :=
  [ Preset "cream-of-the-crop"
      "https://github.com/projectM-visualizer/presets-cream-of-the-crop"
      "~10,000 curated presets from the ProjectM community";
    Preset "milkdrop-original"
      "https://github.com/projectM-visualizer/presets-milkdrop-original"
      "Classic Milkdrop presets from the original Winamp visualizer";
    Texture "milkdrop-textures"
      "https://github.com/projectM-visualizer/presets-milkdrop-texture-pack"
      "Essential textures for Milkdrop-style visual effects";
    Combined ["Cream of the Crop"; "Milkdrop Original"] "presets"
      "Complete preset collection with all available presets";
    Combined ["Milkdrop Textures"] "textures"
      "Complete texture collection for all visual effects" ].


Definition textures_complete : packaging_call :=
  Combined ["Milkdrop Textures"] "textures"
    "Complete texture collection for all visual effects".

(** Nothing is taken away from the first world in the second: every path
    is still there, every directory is still a directory, and the working
    directory and the clock are the same. *)
Definition grows (w w' : World) : Prop :=
  (forall q, is_Some (fs w !! q) -> is_Some (fs w' !! q))
  /\ (forall q, node_at (fs w) q = Some Dir -> node_at (fs w') q = Some Dir)
  /\ cwd w' = cwd w
  /\ clock w' = clock w.

(** The characters of a 7-bit clean text file: space to tilde, and the
    line feed. *)
Definition ascii_safe_char (c : ascii) : bool :=
  Ascii.eqb c LF || ((32 <=? code c)%N && (code c <=? 126)%N).

Fixpoint ascii_safe (s : string) : bool :=
  match s with
  | EmptyString => true
  | String c rest => ascii_safe_char c && ascii_safe rest
  end.

(** A world with a regular file where the output directory should be. *)
Definition blocked_world : World :=
  mkWorld (<[ ["work"; "release-assets"] := File (Text "not a directory") ]>
             Sample.bare_tree)
          ["work"] Sample.morning.



(** Another reading of the clock, with a fraction of a second like
    [Sample.morning], and the sample world under it. *)
Definition afternoon : datetime := mkDatetime 2024 3 9 16 45 30 4321.

Definition afternoon_world : World := with_clock afternoon Sample.world.

(** [str.isascii] *)
Fixpoint isascii (s : string) : bool :=
  match s with
  | EmptyString => true
  | String c rest => (code c <? 128)%N && isascii rest
  end.

End Behaviour.

(** ** The builtins and the script on sample inputs *)

Section Examples.
Import Py Json Fs PackageRelease Spec.

Example title_of_a_hyphenated_name :
  title "cream-of-the-crop" = "Cream-Of-The-Crop".
Proof. reflexivity. Qed.

Example title_lowers_after_a_letter :
  title "x2y hELLO wOrld's" = "X2Y Hello World'S".
Proof. reflexivity. Qed.

Example isoformat_with_microseconds :
  isoformat Sample.morning = "2024-03-09T07:05:00.001234".
Proof. reflexivity. Qed.

Example isoformat_of_a_whole_second :
  isoformat Sample.evening = "2024-03-09T19:30:15".
Proof. reflexivity. Qed.

Example escape_of_special_characters :
  escape (String "009" (String dquote (String backslash (String "127" "z"))))
  = "\t\" ++ String dquote "\\\u007fz".
Proof. reflexivity. Qed.

Example dumps_layout :
  dumps (PDict [("k", PList [PStr "a"; PStr "b"]); ("e", PList [])]) 2
  = "{
  " ++ encode_str "k" ++ ": [
    " ++ encode_str "a" ++ ",
    " ++ encode_str "b" ++ "
  ],
  " ++ encode_str "e" ++ ": []
}".
Proof. reflexivity. Qed.

Example loads_refuses_a_trailing_comma :
  loads ("[" ++ encode_str "a" ++ ",]") = None.
Proof. reflexivity. Qed.

Example loads_refuses_an_unescaped_quote :
  loads (String dquote ("a" ++ String dquote ("b" ++ String dquote EmptyString)))
  = None.
Proof. reflexivity. Qed.

Example loads_refuses_a_raw_line_feed_in_a_string :
  loads (String dquote (String LF (String dquote EmptyString))) = None.
Proof. reflexivity. Qed.

Example loads_refuses_an_open_object : loads "{" = None.
Proof. reflexivity. Qed.

Example loads_reads_a_description_with_a_quote :
  loads (dumps (PStr (String dquote "quoted")) 2)
  = Some (PStr (String dquote "quoted")).
Proof. reflexivity. Qed.

Example parse_path_keeps_dot_dot :
  parse_path "/a//b/./c/../d/" = ["/"; "a"; "b"; "c"; ".."; "d"].
Proof. reflexivity. Qed.

Example joinpath_of_a_name_with_slashes :
  joinpath ["release-assets"] "autovibez-presets-x/../../y.zip"
  = ["release-assets"; "autovibez-presets-x"; ".."; ".."; "y.zip"].
Proof. reflexivity. Qed.

(** The check value of CRC-32. *)
Example crc32_of_the_digits : Zip.crc32 "123456789" = 0xCBF43926%N.
Proof. vm_compute. reflexivity. Qed.

(** [main], started in a directory without [release-assets], creates the
    directory, the five archives and the guide. *)
Example main_creates_five_archives_and_the_guide :
  fst (main Sample.bare_world) = Return tt
  /\ size (fs (snd (main Sample.bare_world))) = 8
  /\ read_file (snd (main Sample.bare_world))
       ["release-assets"; "INSTALL_ASSETS.md"] = Some (Text guide_content)
  /\ map (fun name =>
            option_map (@length (string * string))
              (archive_entries (snd (main Sample.bare_world))
                 ["release-assets"; name]))
       [ "autovibez-presets-cream-of-the-crop.zip";
         "autovibez-presets-milkdrop-original.zip";
         "autovibez-textures-milkdrop-textures.zip";
         "autovibez-presets-complete.zip";
         "autovibez-textures-complete.zip" ]
     = [Some 2; Some 2; Some 2; Some 2; Some 2].
Proof. repeat split; vm_compute; reflexivity. Qed.

(** Without a working directory in the tree, constructing the packager
    raises. *)
Example main_raises_without_a_working_directory :
  fst (main (mkWorld ∅ ["work"] Sample.morning)) = Raise FileNotFoundError.
Proof. vm_compute. reflexivity. Qed.

End Examples.

(** ** Correctness of the JSON reader on the encoder's output *)

#[local] Arguments String.append : simpl nomatch.

Section JsonRoundTrip.
Import Py Json.

Lemma append_assoc (a b c : string) : (a ++ b) ++ c = a ++ (b ++ c).
Proof. induction a as [|x a IH]; simpl; [reflexivity | now rewrite IH]. Qed.

Lemma append_nil_r (a : string) : a ++ EmptyString = a.
Proof. induction a as [|x a IH]; simpl; [reflexivity | now rewrite IH]. Qed.

Lemma length_append (a b : string) :
  String.length (a ++ b) = String.length a + String.length b.
Proof. induction a as [|x a IH]; simpl; [reflexivity | now rewrite IH]. Qed.

(** The reader undoes the escaping of one character. *)
Lemma scan_string_escape_char (c : ascii) (tail : string) :
  scan_string (escape_char c ++ tail) = cons_char c (scan_string tail).
Proof.
  destruct c as [b0 b1 b2 b3 b4 b5 b6 b7].
  destruct b0, b1, b2, b3, b4, b5, b6, b7; reflexivity.
Qed.

Lemma scan_string_escape (s rest : string) :
  scan_string (escape s ++ String dquote rest) = Some (s, rest).
Proof.
  induction s as [|c s IH]; simpl.
  - reflexivity.
  - rewrite append_assoc, scan_string_escape_char, IH. reflexivity.
Qed.

Lemma skip_ws_spaces (n : nat) (s : string) :
  skip_ws (spaces n ++ s) = skip_ws s.
Proof. induction n as [|n IH]; simpl; [reflexivity | exact IH]. Qed.

Lemma skip_ws_newline_indent (indent level : nat) (s : string) :
  skip_ws (newline_indent indent level ++ s) = skip_ws s.
Proof. unfold newline_indent. simpl. apply skip_ws_spaces. Qed.

(** The reader looks at its input only past the leading white space. *)
Lemma parse_value_skip_ws (fuel : nat) (s s' : string) :
  skip_ws s = skip_ws s' -> parse_value fuel s = parse_value fuel s'.
Proof. intros H. destruct fuel; simpl; [reflexivity | now rewrite H]. Qed.

Lemma parse_members_skip_ws (fuel : nat) (s s' : string) :
  skip_ws s = skip_ws s' -> parse_members fuel s = parse_members fuel s'.
Proof. intros H. destruct fuel; simpl; [reflexivity | now rewrite H]. Qed.

(** An encoded value starts with a quote, a bracket or a brace. *)
Lemma iterencode_opener (indent level : nat) (v : pyval) (rest : string) :
  opener (iterencode indent level v ++ rest).
Proof.
  destruct v as [s | [|x xs] | [|kv kvs]]; simpl; constructor.
Qed.

Lemma skip_ws_opener (s : string) : opener s -> skip_ws s = s.
Proof. intros []; reflexivity. Qed.

Lemma parse_value_string (fuel : nat) (s rest : string) :
  parse_value (S fuel) (encode_str s ++ rest) = Some (PStr s, rest).
Proof.
  unfold encode_str. simpl.
  rewrite append_assoc. simpl. rewrite scan_string_escape. reflexivity.
Qed.

Lemma iterencode_list_text indent level x xs rest :
  iterencode indent level (PList (x :: xs)) ++ rest
  = String "[" (newline_indent indent (S level)
                  ++ elements_text indent level (x :: xs) rest).
Proof.
  unfold elements_text.
  change (iterencode indent level (PList (x :: xs)))
    with ("[" ++ newline_indent indent (S level)
            ++ join ("," ++ newline_indent indent (S level))
                 (map (iterencode indent (S level)) (x :: xs))
            ++ newline_indent indent level ++ "]").
  rewrite !append_assoc. reflexivity.
Qed.

Lemma iterencode_dict_text indent level kv kvs rest :
  iterencode indent level (PDict (kv :: kvs)) ++ rest
  = String "{" (newline_indent indent (S level)
                  ++ members_text indent level (kv :: kvs) rest).
Proof.
  unfold members_text.
  change (iterencode indent level (PDict (kv :: kvs)))
    with ("{" ++ newline_indent indent (S level)
            ++ join ("," ++ newline_indent indent (S level))
                 (map (fun kv => encode_str (fst kv) ++ ": "
                          ++ iterencode indent (S level) (snd kv)) (kv :: kvs))
            ++ newline_indent indent level ++ "}").
  rewrite !append_assoc. reflexivity.
Qed.

Lemma elements_text_cons indent level x xs rest :
  elements_text indent level (x :: xs) rest
  = iterencode indent (S level) x
      ++ match xs with
         | [] => newline_indent indent level ++ "]" ++ rest
         | _ :: _ => String "," (newline_indent indent (S level)
                                   ++ elements_text indent level xs rest)
         end.
Proof.
  unfold elements_text. destruct xs as [|y ys].
  - reflexivity.
  - change (join ?sep (map ?f (x :: y :: ys)))
      with (f x ++ sep ++ join sep (map f (y :: ys))).
    rewrite !append_assoc. reflexivity.
Qed.

Lemma member_text_cons indent level (kv : string * pyval) tail :
  (encode_str (fst kv) ++ ": " ++ iterencode indent level (snd kv)) ++ tail
  = String dquote (escape (fst kv) ++ String dquote (String ":" (String " "
      (iterencode indent level (snd kv) ++ tail)))).
Proof.
  unfold encode_str. simpl. rewrite !append_assoc. reflexivity.
Qed.

Lemma members_text_cons indent level kv kvs rest :
  members_text indent level (kv :: kvs) rest
  = String dquote (escape (fst kv) ++ String dquote (String ":" (String " "
      (iterencode indent (S level) (snd kv)
      ++ match kvs with
         | [] => newline_indent indent level ++ "}" ++ rest
         | _ :: _ => String "," (newline_indent indent (S level)
                                   ++ members_text indent level kvs rest)
         end)))).
Proof.
  rewrite <- member_text_cons.
  unfold members_text. destruct kvs as [|y ys].
  - reflexivity.
  - change (join ?sep (map ?f (kv :: y :: ys)))
      with (f kv ++ sep ++ join sep (map f (y :: ys))).
    cbv beta. rewrite !append_assoc. reflexivity.
Qed.

#[local] Arguments newline_indent : simpl never.
#[local] Arguments elements_text : simpl never.
#[local] Arguments members_text : simpl never.

Lemma parse_value_list fuel body :
  opener (skip_ws body) ->
  parse_value (S fuel) (String "[" body)
  = match parse_elements fuel body with
    | Some (items, rest) => Some (PList items, rest)
    | None => None
    end.
Proof. intros H. simpl. destruct H; reflexivity. Qed.

Lemma parse_value_dict fuel body :
  opener (skip_ws body) ->
  parse_value (S fuel) (String "{" body)
  = match parse_members fuel body with
    | Some (items, rest) => Some (PDict items, rest)
    | None => None
    end.
Proof. intros H. simpl. destruct H; reflexivity. Qed.

Lemma reader_round_trip (fuel : nat) :
  (forall v indent level rest,
      weight v <= fuel ->
      parse_value fuel (iterencode indent level v ++ rest) = Some (v, rest))
  /\ (forall x xs indent level rest,
      weight_elements (x :: xs) <= fuel ->
      parse_elements fuel
        (newline_indent indent (S level)
           ++ elements_text indent level (x :: xs) rest)
      = Some (x :: xs, rest))
  /\ (forall kv kvs indent level rest,
      weight_members (kv :: kvs) <= fuel ->
      parse_members fuel
        (newline_indent indent (S level)
           ++ members_text indent level (kv :: kvs) rest)
      = Some (kv :: kvs, rest)).
Proof.
  induction fuel as [|fuel (IHv & IHe & IHm)].
  - repeat split; intros.
    + destruct v; simpl in *; lia.
    + simpl in *; lia.
    + simpl in *; lia.
  - repeat split.
    + intros v indent level rest Hw.
      destruct v as [s | [|x xs] | [|kv kvs]].
      * apply parse_value_string.
      * reflexivity.
      * rewrite iterencode_list_text, parse_value_list.
        -- rewrite IHe; [reflexivity | simpl in *; unfold weight_elements; simpl; lia].
        -- rewrite skip_ws_newline_indent, elements_text_cons.
           rewrite skip_ws_opener; apply iterencode_opener.
      * reflexivity.
      * rewrite iterencode_dict_text, parse_value_dict.
        -- rewrite IHm; [reflexivity | simpl in *; unfold weight_members; simpl; lia].
        -- rewrite skip_ws_newline_indent, members_text_cons.
           simpl. constructor.
    + intros x xs indent level rest Hw.
      change (parse_elements (S fuel) ?s)
        with (match parse_value fuel s with
              | None => None
              | Some (v, rest0) =>
                  match skip_ws rest0 with
                  | String c rest1 =>
                      if Ascii.eqb c ","
                      then match parse_elements fuel rest1 with
                           | Some (items, rest2) => Some (v :: items, rest2)
                           | None => None
                           end
                      else if Ascii.eqb c "]" then Some ([v], rest1) else None
                  | EmptyString => None
                  end
              end).
      rewrite (parse_value_skip_ws fuel _ (elements_text indent level (x :: xs) rest))
        by apply skip_ws_newline_indent.
      rewrite elements_text_cons.
      rewrite IHv by (unfold weight_elements in Hw; simpl in Hw; lia).
      destruct xs as [|y ys].
      * rewrite skip_ws_newline_indent. reflexivity.
      * simpl.
        change (String LF (spaces (indent * S level) ++ ?t))
          with (newline_indent indent (S level) ++ t).
        rewrite IHe; [reflexivity|].
        unfold weight_elements in *; simpl in *; lia.
    + intros [k v] kvs indent level rest Hw.
      rewrite (parse_members_skip_ws (S fuel) _
                 (members_text indent level ((k, v) :: kvs) rest))
        by apply skip_ws_newline_indent.
      rewrite members_text_cons.
      cbn [parse_members fst snd].
      simpl. rewrite scan_string_escape. simpl.
      rewrite (parse_value_skip_ws fuel _
                 (iterencode indent (S level) v ++
                    match kvs with
                    | [] => newline_indent indent level ++ "}" ++ rest
                    | _ :: _ =>
                        String "," (newline_indent indent (S level)
                                      ++ members_text indent level kvs rest)
                    end)) by reflexivity.
      rewrite IHv by (unfold weight_members in Hw; simpl in Hw; lia).
      destruct kvs as [|kv' kvs'].
      * rewrite skip_ws_newline_indent. reflexivity.
      * simpl.
        change (String LF (spaces (indent * S level) ++ ?t))
          with (newline_indent indent (S level) ++ t).
        rewrite IHm; [reflexivity|].
        unfold weight_members in *; simpl in *; lia.
Qed.

(** [json.loads(json.dumps(v, indent=n))] gives [v] back, once the fuel
    covers the weight of [v]. *)
Lemma parse_value_dumps (v : pyval) (indent fuel : nat) :
  weight v <= fuel ->
  parse_value fuel (dumps v indent) = Some (v, EmptyString).
Proof.
  intros H. unfold dumps.
  rewrite <- (append_nil_r (iterencode indent 0 v)).
  now apply reader_round_trip.
Qed.

Lemma weight_join_bound {A : Type} (f : A -> string) (g : A -> nat)
    (sep : string) (xs : list A) :
  1 <= String.length sep ->
  Forall (fun x => g x <= String.length (f x)) xs ->
  fold_right (fun x acc => S (g x + acc)) 0 xs
  <= String.length (join sep (map f xs)) + 1.
Proof.
  intros Hsep H. induction H as [|x xs Hx Hxs IH].
  - simpl. lia.
  - destruct xs as [|y ys].
    + simpl. lia.
    + change (join sep (map f (x :: y :: ys)))
        with (f x ++ sep ++ join sep (map f (y :: ys))).
      change (fold_right ?h 0 (x :: y :: ys))
        with (S (g x + fold_right h 0 (y :: ys))).
      rewrite !length_append. lia.
Qed.

Lemma length_newline_indent (indent level : nat) :
  1 <= String.length (newline_indent indent level).
Proof. unfold newline_indent. simpl. lia. Qed.

(** The text of a value is at least as long as the value is heavy. *)
Lemma weight_le_length (v : pyval) :
  forall indent level, weight v <= String.length (iterencode indent level v).
Proof.
  induction v as [s | items IH | items IH] using pyval_induction;
    intros indent level.
  - unfold iterencode, encode_str. simpl. lia.
  - destruct items as [|x xs]; [simpl; lia|].
    pose proof (weight_join_bound (iterencode indent (S level)) weight
                  ("," ++ newline_indent indent (S level)) (x :: xs)) as Hb.
    change (iterencode indent level (PList (x :: xs)))
      with ("[" ++ newline_indent indent (S level)
              ++ join ("," ++ newline_indent indent (S level))
                   (map (iterencode indent (S level)) (x :: xs))
              ++ newline_indent indent level ++ "]").
    change (weight (PList (x :: xs)))
      with (S (fold_right (fun x acc => S (weight x + acc)) 0 (x :: xs))).
    rewrite !length_append.
    assert (fold_right (fun x acc => S (weight x + acc)) 0 (x :: xs)
            <= String.length
                 (join ("," ++ newline_indent indent (S level))
                    (map (iterencode indent (S level)) (x :: xs))) + 1) as H.
    { apply Hb; [simpl; lia|].
      eapply Forall_impl; [exact IH|]. intros a Ha. apply Ha. }
    pose proof (length_newline_indent indent (S level)).
    pose proof (length_newline_indent indent level).
    simpl String.length at 1. lia.
  - destruct items as [|kv kvs]; [simpl; lia|].
    pose proof (weight_join_bound
                  (fun kv => encode_str (fst kv) ++ ": "
                               ++ iterencode indent (S level) (snd kv))
                  (fun kv => weight (snd kv))
                  ("," ++ newline_indent indent (S level)) (kv :: kvs)) as Hb.
    change (iterencode indent level (PDict (kv :: kvs)))
      with ("{" ++ newline_indent indent (S level)
              ++ join ("," ++ newline_indent indent (S level))
                   (map (fun kv => encode_str (fst kv) ++ ": "
                            ++ iterencode indent (S level) (snd kv)) (kv :: kvs))
              ++ newline_indent indent level ++ "}").
    change (weight (PDict (kv :: kvs)))
      with (S (fold_right (fun kv acc => S (weight (snd kv) + acc)) 0
                 (kv :: kvs))).
    rewrite !length_append.
    assert (fold_right (fun kv acc => S (weight (snd kv) + acc)) 0 (kv :: kvs)
            <= String.length
                 (join ("," ++ newline_indent indent (S level))
                    (map (fun kv => encode_str (fst kv) ++ ": "
                             ++ iterencode indent (S level) (snd kv))
                       (kv :: kvs))) + 1) as H.
    { apply Hb; [simpl; lia|].
      eapply Forall_impl; [exact IH|]. intros a Ha. cbv beta.
      rewrite !length_append. specialize (Ha indent (S level)). lia. }
    pose proof (length_newline_indent indent (S level)).
    pose proof (length_newline_indent indent level).
    simpl String.length at 1. lia.
Qed.

(** [json.loads(json.dumps(v, indent=n)) == v] *)
Lemma loads_dumps (v : pyval) (indent : nat) :
  loads (dumps v indent) = Some v.
Proof.
  unfold loads. rewrite parse_value_dumps; [reflexivity|].
  unfold dumps. pose proof (weight_le_length v indent 0). lia.
Qed.

End JsonRoundTrip.

(** ** The file system primitives *)

Section FileSystem.
Import Py Json Fs.

Lemma walk_app (files : gmap (list string) node) (a b cur : list string) :
  walk files cur (a ++ b)
  = match walk files cur a with
    | Return c => walk files c b
    | Raise e => Raise e
    end.
Proof.
  revert cur. induction a as [|x a IH]; intros cur; simpl.
  - reflexivity.
  - destruct (node_at files cur) as [[|c]|]; try reflexivity.
    destruct (String.eqb x ".."); apply IH.
Qed.

(** Resolution only depends on which paths are directories. *)
Lemma walk_mono (files files' : gmap (list string) node)
    (parts cur t : list string) :
  (forall q, node_at files q = Some Dir -> node_at files' q = Some Dir) ->
  walk files cur parts = Return t ->
  walk files' cur parts = Return t.
Proof.
  intros Hdirs. revert cur.
  induction parts as [|x parts IH]; intros cur; simpl.
  - trivial.
  - destruct (node_at files cur) as [[|c]|] eqn:Hcur; try discriminate.
    rewrite (Hdirs _ Hcur).
    destruct (String.eqb x ".."); apply IH.
Qed.

Lemma resolve_mono (w w' : World) (p : Path) (t : list string) :
  cwd w' = cwd w ->
  (forall q, node_at (fs w) q = Some Dir -> node_at (fs w') q = Some Dir) ->
  resolve w p = Return t -> resolve w' p = Return t.
Proof.
  intros Hcwd Hdirs. unfold resolve.
  destruct (existsb has_nul p); [discriminate|].
  rewrite Hcwd.
  destruct p as [|x p]; [trivial|].
  destruct (String.eqb x "/"); apply walk_mono, Hdirs.
Qed.

Lemma insert_keeps_dirs (files : gmap (list string) node)
    (t : list string) (n : node) :
  node_at files t <> Some Dir ->
  forall q, node_at files q = Some Dir ->
            node_at (<[t := n]> files) q = Some Dir.
Proof.
  intros Ht q Hq. destruct q as [|x q]; [reflexivity|].
  simpl in *. destruct (decide (t = x :: q)) as [->|Hne].
  - now contradiction Ht.
  - now rewrite lookup_insert_ne.
Qed.

Lemma has_slash_app (a b : string) :
  has_slash (a ++ b) = has_slash a || has_slash b.
Proof.
  induction a as [|c a IH]; simpl; [reflexivity|].
  now rewrite IH, orb_assoc.
Qed.

Lemma split_slash_no_slash (s : string) :
  has_slash s = false -> split_slash s = [s].
Proof.
  induction s as [|c s IH]; simpl; [reflexivity|].
  destruct (Ascii.eqb c "/"); [discriminate|].
  intros H. now rewrite (IH H).
Qed.

(** A file name without a slash is a single part of the path. *)
Lemma components_no_slash (s : string) :
  has_slash s = false -> is_name s = true -> components s = [s].
Proof.
  intros Hs Hn. unfold components.
  rewrite (split_slash_no_slash s Hs). simpl. now rewrite Hn.
Qed.

Lemma walk_child (files : gmap (list string) node) (n : string)
    (parts cur t : list string) :
  String.eqb n ".." = false ->
  walk files cur (parts ++ [n]) = Return t ->
  exists d, walk files cur parts = Return d
            /\ node_at files d = Some Dir
            /\ t = (d ++ [n])%list.
Proof.
  intros Hn. rewrite walk_app.
  destruct (walk files cur parts) as [d|e]; [|discriminate].
  simpl. destruct (node_at files d) as [[|c]|] eqn:Hd; try discriminate.
  rewrite Hn. intros [= <-]. exists d. auto.
Qed.

Lemma existsb_has_nul_snoc (p : Path) (n : string) :
  existsb has_nul (p ++ [n]) = existsb has_nul p || has_nul n.
Proof. rewrite existsb_app. simpl. now rewrite orb_false_r. Qed.

(** A path that ends in a plain name resolves to that name inside the
    directory the rest of the path resolves to. *)
Lemma resolve_child (w : World) (p : Path) (n : string) (t : list string) :
  String.eqb n "/" = false ->
  String.eqb n ".." = false ->
  resolve w (p ++ [n]) = Return t ->
  exists d, resolve w p = Return d
            /\ node_at (fs w) d = Some Dir
            /\ t = (d ++ [n])%list.
Proof.
  intros Hroot Hup. unfold resolve. rewrite existsb_has_nul_snoc.
  destruct (existsb has_nul p); [discriminate|].
  destruct (has_nul n); [discriminate|]. simpl.
  destruct p as [|a rest]; simpl.
  - rewrite Hroot.
    destruct (node_at (fs w) (cwd w)) as [[|c]|] eqn:Hc; try discriminate.
    rewrite Hup. intros [= <-]. exists (cwd w). auto.
  - destruct (String.eqb a "/").
    + now apply walk_child.
    + apply (walk_child (fs w) n (a :: rest)); assumption.
Qed.


(** A successful open: where the file is, and what the world becomes. *)
Lemma open_w_return (p : Path) (c : content) (w w' : World)
    (t : list string) :
  open_w p c w = (Return t, w') ->
  resolve w p = Return t
  /\ node_at (fs w) t <> Some Dir
  /\ w' = set_fs (<[t := File c]> (fs w)) w.
Proof.
  unfold open_w. destruct (resolve w p) as [t0|e]; [|discriminate].
  destruct (node_at (fs w) t0) as [[|c0]|] eqn:Hn; [discriminate| |];
    intros [= <- <-]; (split; [reflexivity|]); (split; [|reflexivity]);
    rewrite Hn; discriminate.
Qed.

(** A failed open leaves the world as it was. *)
Lemma open_w_raise (p : Path) (c : content) (w w' : World) (e : exn) :
  open_w p c w = (Raise e, w') -> w' = w.
Proof.
  unfold open_w. destruct (resolve w p) as [t0|e0].
  - destruct (node_at (fs w) t0) as [[|c0]|]; congruence.
  - congruence.
Qed.

(** Whether an open succeeds does not depend on what is written. *)
Lemma open_w_outcome (p : Path) (c c' : content) (w : World) :
  match open_w p c w, open_w p c' w with
  | (Return t, _), (Return t', _) => t = t'
  | (Raise e, _), (Raise e', _) => e = e'
  | _, _ => False
  end.
Proof.
  unfold open_w. destruct (resolve w p) as [t0|e0]; [|reflexivity].
  destruct (node_at (fs w) t0) as [[|c0]|]; reflexivity.
Qed.

(** A [with ZipFile(...)] block that writes two entries amounts to one
    write of the finished archive. *)
Lemma zip_session {A : Type} (p : Path) (method : compression)
    (a1 d1 a2 d2 : string) (r : A) (w : World) :
  (zipf <- ZipFile p method ;;
   writestr zipf a1 d1 ;;
   writestr zipf a2 d2 ;;
   close zipf ;;
   ret r)%py w
  = match open_w p (ZipArchive method [(a1, d1); (a2, d2)]) w with
    | (Return _, w') => (Return r, w')
    | (Raise e, w') => (Raise e, w')
    end.
Proof.
  unfold bind, ZipFile, open_w, writestr, close, ret.
  destruct (resolve w p) as [t|e]; [|reflexivity].
  destruct (node_at (fs w) t) as [[|c0]|]; try reflexivity;
    simpl; rewrite lookup_insert_eq; simpl; rewrite lookup_insert_eq;
    unfold set_fs; simpl; now rewrite !insert_insert_eq.
Qed.

(** A [with open(...)] block that writes once amounts to one write of the
    text. *)
Lemma text_session {A : Type} (p : Path) (data : string) (r : A)
    (w : World) :
  (f <- open_text p ;; write f data ;; close f ;; ret r)%py w
  = match open_w p (Text data) w with
    | (Return _, w') => (Return r, w')
    | (Raise e, w') => (Raise e, w')
    end.
Proof.
  unfold bind, open_text, open_w, write, close, ret.
  destruct (resolve w p) as [t|e]; [|reflexivity].
  destruct (node_at (fs w) t) as [[|c0]|]; try reflexivity;
    simpl; rewrite lookup_insert_eq; simpl;
    unfold set_fs; simpl; now rewrite !insert_insert_eq.
Qed.

End FileSystem.

(** ** The packaging operations *)

(** A property of every call of a list, shown call by call. *)
Ltac for_each_call tac :=
  repeat (apply List.Forall_cons; [tac|]); apply List.Forall_nil.

Section Operations.
Import Py Json Fs PackageRelease Spec.

(** A run is known from its outcome, the world it leaves being [snd]. *)
Lemma run_of_outcome {A : Type} (run : outcome A * World) (r : outcome A) :
  fst run = r -> run = (r, snd run).
Proof. intros <-. now destruct run. Qed.

(** Each operation opens its archive path once and leaves there the two
    entries it has written. *)
Lemma invoke_run (self : ReleaseAssetPackager) (call : packaging_call)
    (w : World) :
  invoke self call w
  = match open_w (joinpath (output_dir self) (package_name call))
            (ZipArchive ZIP_DEFLATED (archive_of call (isoformat (clock w))))
            w with
    | (Return _, w') =>
        (Return (joinpath (output_dir self) (package_name call)), w')
    | (Raise e, w') => (Raise e, w')
    end.
Proof.
  destruct call; exact (zip_session _ _ _ _ _ _ _ w).
Qed.

Lemma invoke_return (self : ReleaseAssetPackager) (call : packaging_call)
    (w w' : World) (p : Path) :
  invoke self call w = (Return p, w') ->
  p = joinpath (output_dir self) (package_name call)
  /\ exists t,
      resolve w p = Return t
      /\ node_at (fs w) t <> Some Dir
      /\ w' = set_fs (<[t := File (ZipArchive ZIP_DEFLATED
                                     (archive_of call (isoformat (clock w))))]>
                        (fs w)) w.
Proof.
  rewrite invoke_run.
  destruct (open_w _ _ w) as [[t|e] w1] eqn:Hopen; [|discriminate].
  intros [= <- <-]. split; [reflexivity|].
  exists t. now apply open_w_return in Hopen.
Qed.

(** After a successful open the path reads back what was written. *)
Lemma read_file_written (w : World) (p : Path) (t : list string)
    (c : content) :
  resolve w p = Return t ->
  node_at (fs w) t <> Some Dir ->
  read_file (set_fs (<[t := File c]> (fs w)) w) p = Some c.
Proof.
  intros Hres Hnode. unfold read_file.
  rewrite (resolve_mono w _ p t); [ | reflexivity | | exact Hres].
  - simpl. now rewrite lookup_insert_eq.
  - simpl. now apply insert_keeps_dirs.
Qed.

Lemma invoke_archive (self : ReleaseAssetPackager) (call : packaging_call)
    (w w' : World) (p : Path) :
  invoke self call w = (Return p, w') ->
  archive_entries w' p = Some (archive_of call (isoformat (clock w))).
Proof.
  intros H. apply invoke_return in H as (_ & t & Hres & Hnode & ->).
  unfold archive_entries. now rewrite (read_file_written w p t).
Qed.

(** The metadata entry of a written archive, and what [json.loads] makes
    of it. *)
Lemma invoke_metadata (self : ReleaseAssetPackager) (call : packaging_call)
    (w w' : World) (p : Path) :
  invoke self call w = (Return p, w') ->
  exists text,
    read_entry w' p "metadata.json" = Some text
    /\ loads text = Some (metadata_of call (isoformat (clock w))).
Proof.
  intros H. apply invoke_archive in H.
  exists (dumps (metadata_of call (isoformat (clock w))) 2). split.
  - unfold read_entry. rewrite H. reflexivity.
  - apply loads_dumps.
Qed.

Lemma invoke_readme (self : ReleaseAssetPackager) (call : packaging_call)
    (w w' : World) (p : Path) :
  invoke self call w = (Return p, w') ->
  read_entry w' p "README.md" = Some (readme_of call (isoformat (clock w))).
Proof.
  intros H. apply invoke_archive in H.
  unfold read_entry. rewrite H. reflexivity.
Qed.

End Operations.

(** ** Properties of the archives *)

Section Archives.
Import Py Json Fs PackageRelease Spec.

(** C1 (amended).  Whenever one of the three packaging operations returns,
    the archive at the returned path holds exactly two entries,
    [metadata.json] and [README.md], in this order; this is so for
    [create_combined_package] too. *)
Theorem archive_has_two_entries (self : ReleaseAssetPackager)
    (call : packaging_call) (w w' : World) (p : Path) :
  invoke self call w = (Return p, w') ->
  exists metadata readme,
    archive_entries w' p
    = Some [("metadata.json", metadata); ("README.md", readme)].
Proof.
  intros H. apply invoke_archive in H. unfold archive_of in H. eauto.
Qed.

Lemma archive_has_two_entries_witness :
  Forall
    (fun call =>
       fst (invoke Sample.packager call Sample.world)
       = Return ["release-assets"; package_name call]
       /\ exists metadata readme,
           archive_entries (snd (invoke Sample.packager call Sample.world))
             ["release-assets"; package_name call]
           = Some [("metadata.json", metadata); ("README.md", readme)])
    [Sample.cream; Sample.textures; Sample.presets_complete].
Proof.
  for_each_call
    ltac:(split;
          [ vm_compute; reflexivity
          | eapply (archive_has_two_entries Sample.packager _ Sample.world);
            apply run_of_outcome; vm_compute; reflexivity ]).
Defined.

(** C1, as stated, fails for [create_combined_package]: the archive it
    writes for the preset collection of [main] has two entries, not
    three. *)
Lemma combined_archive_not_three_entries :
  let run :=
    create_combined_package Sample.packager
      ["Cream of the Crop"; "Milkdrop Original"] "presets"
      "Complete preset collection with all available presets" Sample.world in
  fst run = Return ["release-assets"; "autovibez-presets-complete.zip"]
  /\ option_map (@length (string * string))
       (archive_entries (snd run)
          ["release-assets"; "autovibez-presets-complete.zip"]) = Some 2
  /\ option_map (@length (string * string))
       (archive_entries (snd run)
          ["release-assets"; "autovibez-presets-complete.zip"]) <> Some 3.
Proof.
  assert (option_map (@length (string * string))
            (archive_entries
               (snd (create_combined_package Sample.packager
                       ["Cream of the Crop"; "Milkdrop Original"] "presets"
                       "Complete preset collection with all available presets"
                       Sample.world))
               ["release-assets"; "autovibez-presets-complete.zip"]) = Some 2)
    as H by (vm_compute; reflexivity).
  cbv zeta. split; [vm_compute; reflexivity|].
  split; [exact H|]. rewrite H. discriminate.
Qed.

(** C2.  Whenever [create_preset_package] or [create_texture_package]
    returns, the [metadata.json] entry of the archive it wrote is accepted
    by [json.loads], and the value read has exactly the keys [name],
    [description], [type], [source_url], [created] and [version]. *)
Theorem metadata_is_json_with_six_keys (self : ReleaseAssetPackager)
    (name source_url description : string) (w w' : World) (p : Path) :
  create_preset_package self name source_url description w = (Return p, w')
  \/ create_texture_package self name source_url description w
     = (Return p, w') ->
  exists text v,
    read_entry w' p "metadata.json" = Some text
    /\ loads text = Some v
    /\ keys v
       = ["name"; "description"; "type"; "source_url"; "created"; "version"].
Proof.
  intros [H | H].
  - apply (invoke_metadata self (Preset name source_url description)) in H
      as (text & Hread & Hloads).
    exists text, (preset_metadata name source_url description
                    (isoformat (clock w))).
    repeat split; assumption || reflexivity.
  - apply (invoke_metadata self (Texture name source_url description)) in H
      as (text & Hread & Hloads).
    exists text, (texture_metadata name source_url description
                    (isoformat (clock w))).
    repeat split; assumption || reflexivity.
Qed.

Lemma metadata_is_json_with_six_keys_witness :
  (fst (create_preset_package Sample.packager "cream-of-the-crop"
          "https://example.org/presets" "Curated presets" Sample.world)
   = Return ["release-assets"; "autovibez-presets-cream-of-the-crop.zip"]
   /\ exists text v,
       read_entry
         (snd (create_preset_package Sample.packager "cream-of-the-crop"
                 "https://example.org/presets" "Curated presets"
                 Sample.world))
         ["release-assets"; "autovibez-presets-cream-of-the-crop.zip"]
         "metadata.json" = Some text
       /\ loads text = Some v
       /\ keys v
          = ["name"; "description"; "type"; "source_url"; "created";
             "version"])
  /\ (fst (create_texture_package Sample.packager "milkdrop-textures"
             "https://example.org/textures" "Essential textures" Sample.world)
      = Return ["release-assets"; "autovibez-textures-milkdrop-textures.zip"]
      /\ exists text v,
          read_entry
            (snd (create_texture_package Sample.packager "milkdrop-textures"
                    "https://example.org/textures" "Essential textures"
                    Sample.world))
            ["release-assets"; "autovibez-textures-milkdrop-textures.zip"]
            "metadata.json" = Some text
          /\ loads text = Some v
          /\ keys v
             = ["name"; "description"; "type"; "source_url"; "created";
                "version"]).
Proof.
  split; (split; [vm_compute; reflexivity|]).
  - apply (metadata_is_json_with_six_keys Sample.packager "cream-of-the-crop"
             "https://example.org/presets" "Curated presets" Sample.world).
    left. apply run_of_outcome. vm_compute. reflexivity.
  - apply (metadata_is_json_with_six_keys Sample.packager "milkdrop-textures"
             "https://example.org/textures" "Essential textures"
             Sample.world).
    right. apply run_of_outcome. vm_compute. reflexivity.
Defined.

(** C7.  Whenever one of the three packaging operations returns, the
    [README.md] entry of the archive it wrote is not empty, whatever the
    name, the source URL and the description, empty strings included. *)
Theorem readme_is_not_empty (self : ReleaseAssetPackager)
    (call : packaging_call) (w w' : World) (p : Path) :
  invoke self call w = (Return p, w') ->
  exists readme,
    read_entry w' p "README.md" = Some readme /\ readme <> EmptyString.
Proof.
  intros H. apply invoke_readme in H.
  exists (readme_of call (isoformat (clock w))). split; [exact H|].
  destruct call; simpl; discriminate.
Qed.

Lemma readme_is_not_empty_witness :
  Forall
    (fun call =>
       fst (invoke Sample.packager call Sample.world)
       = Return ["release-assets"; package_name call]
       /\ exists readme,
           read_entry (snd (invoke Sample.packager call Sample.world))
             ["release-assets"; package_name call] "README.md"
           = Some readme
           /\ readme <> EmptyString)
    [ Preset EmptyString EmptyString EmptyString;
      Texture EmptyString EmptyString EmptyString;
      Combined [] EmptyString EmptyString;
      Sample.cream; Sample.textures; Sample.presets_complete ].
Proof.
  for_each_call
    ltac:(split;
          [ vm_compute; reflexivity
          | eapply (readme_is_not_empty Sample.packager _ Sample.world);
            apply run_of_outcome; vm_compute; reflexivity ]).
Defined.

(** C9.  The metadata written by [create_combined_package] has a
    [packages] key holding the given list and no [source_url] key; the
    metadata written by [create_preset_package] and
    [create_texture_package] has a [source_url] key holding the given URL
    and no [packages] key. *)
Theorem metadata_packages_or_source_url :
  (forall (self : ReleaseAssetPackager) (packages : list string)
          (name description : string) (w w' : World) (p : Path),
      create_combined_package self packages name description w
      = (Return p, w') ->
      exists text v,
        read_entry w' p "metadata.json" = Some text
        /\ loads text = Some v
        /\ get "packages" v = Some (PList (map PStr packages))
        /\ get "source_url" v = None)
  /\ (forall (self : ReleaseAssetPackager)
             (name source_url description : string) (w w' : World) (p : Path),
      create_preset_package self name source_url description w
      = (Return p, w')
      \/ create_texture_package self name source_url description w
         = (Return p, w') ->
      exists text v,
        read_entry w' p "metadata.json" = Some text
        /\ loads text = Some v
        /\ get "source_url" v = Some (PStr source_url)
        /\ get "packages" v = None).
Proof.
  split.
  - intros self packages name description w w' p H.
    apply (invoke_metadata self (Combined packages name description)) in H
      as (text & Hread & Hloads).
    exists text, (combined_metadata packages name description
                    (isoformat (clock w))).
    repeat split; assumption || reflexivity.
  - intros self name source_url description w w' p [H | H].
    + apply (invoke_metadata self (Preset name source_url description)) in H
        as (text & Hread & Hloads).
      exists text, (preset_metadata name source_url description
                      (isoformat (clock w))).
      repeat split; assumption || reflexivity.
    + apply (invoke_metadata self (Texture name source_url description)) in H
        as (text & Hread & Hloads).
      exists text, (texture_metadata name source_url description
                      (isoformat (clock w))).
      repeat split; assumption || reflexivity.
Qed.

Lemma metadata_packages_or_source_url_witness :
  (fst (create_combined_package Sample.packager ["Milkdrop Textures"]
          "textures" "All textures" Sample.world)
   = Return ["release-assets"; "autovibez-textures-complete.zip"]
   /\ exists text v,
       read_entry
         (snd (create_combined_package Sample.packager
                 ["Milkdrop Textures"] "textures" "All textures"
                 Sample.world))
         ["release-assets"; "autovibez-textures-complete.zip"]
         "metadata.json" = Some text
       /\ loads text = Some v
       /\ get "packages" v = Some (PList [PStr "Milkdrop Textures"])
       /\ get "source_url" v = None)
  /\ (fst (create_preset_package Sample.packager "milkdrop-original"
             "https://example.org/presets" "Classic presets" Sample.world)
      = Return ["release-assets"; "autovibez-presets-milkdrop-original.zip"]
      /\ exists text v,
          read_entry
            (snd (create_preset_package Sample.packager "milkdrop-original"
                    "https://example.org/presets" "Classic presets"
                    Sample.world))
            ["release-assets"; "autovibez-presets-milkdrop-original.zip"]
            "metadata.json" = Some text
          /\ loads text = Some v
          /\ get "source_url" v = Some (PStr "https://example.org/presets")
          /\ get "packages" v = None)
  /\ (fst (create_texture_package Sample.packager "milkdrop-textures"
             "https://example.org/textures" "Essential textures" Sample.world)
      = Return ["release-assets"; "autovibez-textures-milkdrop-textures.zip"]
      /\ exists text v,
          read_entry
            (snd (create_texture_package Sample.packager "milkdrop-textures"
                    "https://example.org/textures" "Essential textures"
                    Sample.world))
            ["release-assets"; "autovibez-textures-milkdrop-textures.zip"]
            "metadata.json" = Some text
          /\ loads text = Some v
          /\ get "source_url" v = Some (PStr "https://example.org/textures")
          /\ get "packages" v = None).
Proof.
  destruct metadata_packages_or_source_url as [Hcombined Hsingle].
  split; [|split]; (split; [vm_compute; reflexivity|]).
  - apply (Hcombined Sample.packager ["Milkdrop Textures"] "textures"
             "All textures" Sample.world).
    apply run_of_outcome. vm_compute. reflexivity.
  - apply (Hsingle Sample.packager "milkdrop-original"
             "https://example.org/presets" "Classic presets" Sample.world).
    left. apply run_of_outcome. vm_compute. reflexivity.
  - apply (Hsingle Sample.packager "milkdrop-textures"
             "https://example.org/textures" "Essential textures"
             Sample.world).
    right. apply run_of_outcome. vm_compute. reflexivity.
Defined.

(** C10.  The path an operation returns is the output directory joined
    with a file name made from the operation and the name alone:
    [autovibez-presets-{name}.zip], [autovibez-textures-{name}.zip] and
    [autovibez-{name}-complete.zip]; so [create_combined_package] with the
    name [presets] and [create_preset_package] with the name [complete]
    return the same path. *)
Theorem returned_path_is_joined_file_name :
  (forall self name source_url description w w' p,
      create_preset_package self name source_url description w
      = (Return p, w') ->
      p = joinpath (output_dir self) ("autovibez-presets-" ++ name ++ ".zip"))
  /\ (forall self name source_url description w w' p,
      create_texture_package self name source_url description w
      = (Return p, w') ->
      p = joinpath (output_dir self) ("autovibez-textures-" ++ name ++ ".zip"))
  /\ (forall self packages name description w w' p,
      create_combined_package self packages name description w
      = (Return p, w') ->
      p = joinpath (output_dir self) ("autovibez-" ++ name ++ "-complete.zip"))
  /\ (forall self packages description source_url description' w1 w1' w2 w2'
             p1 p2,
      create_combined_package self packages "presets" description w1
      = (Return p1, w1') ->
      create_preset_package self "complete" source_url description' w2
      = (Return p2, w2') ->
      p1 = p2
      /\ p1 = joinpath (output_dir self) "autovibez-presets-complete.zip").
Proof.
  repeat split.
  - intros self name source_url description w w' p H.
    now apply (invoke_return self (Preset name source_url description)) in H.
  - intros self name source_url description w w' p H.
    now apply (invoke_return self (Texture name source_url description)) in H.
  - intros self packages name description w w' p H.
    now apply (invoke_return self (Combined packages name description)) in H.
  - apply (invoke_return self (Combined packages "presets" description)) in H
      as [-> _].
    apply (invoke_return self (Preset "complete" source_url description')) in H0
      as [-> _].
    reflexivity.
  - now apply (invoke_return self (Combined packages "presets" description))
      in H as [-> _].
Qed.

(** The paths of C10 on the packages of [main]. *)
Lemma returned_path_is_joined_file_name_witness :
  ["release-assets"; "autovibez-presets-cream-of-the-crop.zip"]
  = joinpath (output_dir Sample.packager)
      ("autovibez-presets-" ++ "cream-of-the-crop" ++ ".zip")
  /\ ["release-assets"; "autovibez-textures-milkdrop-textures.zip"]
     = joinpath (output_dir Sample.packager)
         ("autovibez-textures-" ++ "milkdrop-textures" ++ ".zip")
  /\ ["release-assets"; "autovibez-presets-complete.zip"]
     = joinpath (output_dir Sample.packager)
         ("autovibez-" ++ "presets" ++ "-complete.zip")
  /\ ["release-assets"; "autovibez-presets-complete.zip"]
     = ["release-assets"; "autovibez-presets-complete.zip"].
Proof.
  destruct returned_path_is_joined_file_name
    as (Hpreset & Htexture & Hcombined & Hsame).
  split; [|split; [|split]].
  - apply (Hpreset Sample.packager "cream-of-the-crop"
             "https://example.org/cream" "Curated presets" Sample.world
             (snd (create_preset_package Sample.packager "cream-of-the-crop"
                     "https://example.org/cream" "Curated presets"
                     Sample.world))).
    apply run_of_outcome. vm_compute. reflexivity.
  - apply (Htexture Sample.packager "milkdrop-textures"
             "https://example.org/textures" "Essential textures" Sample.world
             (snd (create_texture_package Sample.packager "milkdrop-textures"
                     "https://example.org/textures" "Essential textures"
                     Sample.world))).
    apply run_of_outcome. vm_compute. reflexivity.
  - apply (Hcombined Sample.packager ["Cream of the Crop"] "presets"
             "All presets" Sample.world
             (snd (create_combined_package Sample.packager
                     ["Cream of the Crop"] "presets" "All presets"
                     Sample.world))).
    apply run_of_outcome. vm_compute. reflexivity.
  - apply (Hsame Sample.packager ["Cream of the Crop"] "All presets"
             "https://example.org/complete" "Complete" Sample.world
             (snd (create_combined_package Sample.packager
                     ["Cream of the Crop"] "presets" "All presets"
                     Sample.world))
             Sample.later_world
             (snd (create_preset_package Sample.packager "complete"
                     "https://example.org/complete" "Complete"
                     Sample.later_world))).
    + apply run_of_outcome. vm_compute. reflexivity.
    + apply run_of_outcome. vm_compute. reflexivity.
Defined.

End Archives.

(** ** The time stamp inside the documents *)

Section TimeStamp.
Import Py Json Fs PackageRelease Spec.

Lemma escape_app (a b : string) : escape (a ++ b) = escape a ++ escape b.
Proof.
  induction a as [|c a IH]; simpl; [reflexivity|].
  now rewrite IH, append_assoc.
Qed.

Lemma escape_decimal (n : N) : escape (decimal n) = decimal n.
Proof.
  unfold decimal. induction (N.to_uint n) as [|u IH|u IH|u IH|u IH|u IH|u IH
                                            |u IH|u IH|u IH|u IH];
    simpl; try rewrite IH; reflexivity.
Qed.

Lemma escape_zeros (n : nat) : escape (zeros n) = zeros n.
Proof. induction n as [|n IH]; simpl; [|rewrite IH]; reflexivity. Qed.

Lemma escape_zero_padded (width : nat) (n : N) :
  escape (zero_padded width n) = zero_padded width n.
Proof.
  unfold zero_padded. now rewrite escape_app, escape_zeros, escape_decimal.
Qed.

(** A time stamp needs no escaping in JSON. *)
Lemma escape_isoformat (d : datetime) : escape (isoformat d) = isoformat d.
Proof.
  unfold isoformat.
  rewrite !escape_app, !escape_zero_padded.
  destruct (microsecond d =? 0)%N.
  - reflexivity.
  - now rewrite escape_app, escape_zero_padded.
Qed.

Lemma stamped_here (after : string) :
  stamped_template (fun created => created ++ after).
Proof. exists EmptyString, after. reflexivity. Qed.

Lemma stamped_escaped (after : string) :
  stamped_template (fun created => escape created ++ after).
Proof.
  exists EmptyString, after. intros now. now rewrite escape_isoformat.
Qed.

Lemma stamped_cons (c : ascii) (text : string -> string) :
  stamped_template text ->
  stamped_template (fun created => String c (text created)).
Proof.
  intros (before & after & H). exists (String c before), after.
  intros now. now rewrite H.
Qed.

Lemma stamped_app (prefix : string) (text : string -> string) :
  stamped_template text ->
  stamped_template (fun created => prefix ++ text created).
Proof.
  intros (before & after & H). exists (prefix ++ before), after.
  intros now. now rewrite H, append_assoc.
Qed.

Lemma stamped_assoc (f g h : string -> string) :
  stamped_template (fun created => f created ++ g created ++ h created) ->
  stamped_template (fun created => (f created ++ g created) ++ h created).
Proof.
  intros (before & after & H). exists before, after.
  intros now. now rewrite append_assoc, H.
Qed.

Ltac find_stamp :=
  repeat first [ apply stamped_cons | apply stamped_assoc | apply stamped_app ];
  first [ apply stamped_escaped | apply stamped_here ].

(** The time stamp occurs once in the metadata document. *)
Lemma metadata_stamped (call : packaging_call) :
  stamped_template (fun created => dumps (metadata_of call created) 2).
Proof. destruct call; unfold dumps; simpl; find_stamp. Qed.

(** The time stamp occurs once in the README document. *)
Lemma readme_stamped (call : packaging_call) :
  stamped_template (fun created => readme_of call created).
Proof. destruct call; simpl; find_stamp. Qed.

End TimeStamp.

(** ** Descriptors and reruns *)

Section Descriptors.
Import Py Json Fs PackageRelease Spec.

(** C4 (amended).  The [type] field of the descriptor an operation writes
    is [presets] for [create_preset_package], [textures] for
    [create_texture_package], and the given name for
    [create_combined_package]. *)
Theorem metadata_type_field (self : ReleaseAssetPackager)
    (call : packaging_call) (w w' : World) (p : Path) :
  invoke self call w = (Return p, w') ->
  exists v,
    read_metadata w' p = Some v
    /\ get "type" v = Some (PStr (type_of call)).
Proof.
  intros H. apply invoke_metadata in H as (text & Hread & Hloads).
  exists (metadata_of call (isoformat (clock w))). split.
  - unfold read_metadata. now rewrite Hread.
  - destruct call; reflexivity.
Qed.

Lemma metadata_type_field_witness :
  Forall
    (fun call =>
       fst (invoke Sample.packager call Sample.world)
       = Return ["release-assets"; package_name call]
       /\ exists v,
           read_metadata (snd (invoke Sample.packager call Sample.world))
             ["release-assets"; package_name call] = Some v
           /\ get "type" v = Some (PStr (type_of call)))
    [Sample.cream; Sample.textures; Sample.presets_complete]
  /\ map type_of [Sample.cream; Sample.textures; Sample.presets_complete]
     = ["presets"; "textures"; "presets"].
Proof.
  split; [|reflexivity].
  for_each_call
    ltac:(split;
          [ vm_compute; reflexivity
          | eapply (metadata_type_field Sample.packager _ Sample.world);
            apply run_of_outcome; vm_compute; reflexivity ]).
Defined.

(** C4, as stated, fails: [create_combined_package] called with the name
    [extras] writes a descriptor whose [type] is [extras], which is none of
    [presets], [textures] and [combined]. *)
Lemma combined_type_is_the_name :
  let run :=
    create_combined_package Sample.packager ["Cream of the Crop"] "extras"
      "Extra material" Sample.world in
  fst run = Return ["release-assets"; "autovibez-extras-complete.zip"]
  /\ match read_metadata (snd run)
             ["release-assets"; "autovibez-extras-complete.zip"] with
     | Some v => get "type" v
     | None => None
     end = Some (PStr "extras")
  /\ ~ In "extras" ["presets"; "textures"; "combined"].
Proof.
  cbv zeta. split; [vm_compute; reflexivity|].
  split; [vm_compute; reflexivity|].
  intros [H | [H | [H | []]]]; discriminate.
Qed.

Lemma same_tree_same_open (p : Path) (c : content) (w1 w2 : World) :
  fs w1 = fs w2 -> cwd w1 = cwd w2 ->
  match open_w p c w1 with
  | (Return t, w1') =>
      open_w p c w2 = (Return t, set_fs (<[t := File c]> (fs w2)) w2)
  | (Raise e, _) => open_w p c w2 = (Raise e, w2)
  end.
Proof.
  intros Hfs Hcwd. unfold open_w, resolve. rewrite Hfs, Hcwd.
  destruct (existsb has_nul p); [reflexivity|].
  destruct (match p with
            | [] => Return (cwd w2)
            | anchor :: rest =>
                if String.eqb anchor "/" then walk (fs w2) [] rest
                else walk (fs w2) (cwd w2) p
            end) as [t|e]; [|reflexivity].
  destruct (node_at (fs w2) t) as [[|c0]|]; reflexivity.
Qed.

(** C3 (amended).  Two runs of a packaging operation with the same
    arguments, in worlds that differ only in the reading of the clock, end
    alike: both raise the same exception or both return the same path; and
    then the two archives have the same entry names, each entry being the
    same text around the one place where the time stamp stands, and every
    other file is the same in both worlds. *)
Theorem rerun_differs_in_time_stamp_only (self : ReleaseAssetPackager)
    (call : packaging_call) :
  exists mbefore mafter rbefore rafter,
    forall w1 w2,
      fs w1 = fs w2 -> cwd w1 = cwd w2 ->
      fst (invoke self call w1) = fst (invoke self call w2)
      /\ forall p w1',
          invoke self call w1 = (Return p, w1') ->
          exists w2' t,
            invoke self call w2 = (Return p, w2')
            /\ resolve w1 p = Return t
            /\ archive_entries w1' p
               = Some [("metadata.json",
                        mbefore ++ isoformat (clock w1) ++ mafter);
                       ("README.md",
                        rbefore ++ isoformat (clock w1) ++ rafter)]
            /\ archive_entries w2' p
               = Some [("metadata.json",
                        mbefore ++ isoformat (clock w2) ++ mafter);
                       ("README.md",
                        rbefore ++ isoformat (clock w2) ++ rafter)]
            /\ (forall q, q <> t -> fs w1' !! q = fs w2' !! q)
            /\ cwd w1' = cwd w2'.
Proof.
  destruct (metadata_stamped call) as (mbefore & mafter & Hm).
  destruct (readme_stamped call) as (rbefore & rafter & Hr).
  exists mbefore, mafter, rbefore, rafter.
  intros w1 w2 Hfs Hcwd.
  pose proof (same_tree_same_open
                (joinpath (output_dir self) (package_name call))
                (ZipArchive ZIP_DEFLATED
                   (archive_of call (isoformat (clock w1))))
                w1 w2 Hfs Hcwd) as Hsame.
  pose proof (open_w_outcome
                (joinpath (output_dir self) (package_name call))
                (ZipArchive ZIP_DEFLATED
                   (archive_of call (isoformat (clock w1))))
                (ZipArchive ZIP_DEFLATED
                   (archive_of call (isoformat (clock w2)))) w2) as Hout.
  split.
  - rewrite !invoke_run.
    destruct (open_w _ (ZipArchive _ (archive_of call (isoformat (clock w1))))
                w1) as [[t|e] w1'];
      rewrite Hsame in Hout;
      destruct (open_w _ (ZipArchive _
                            (archive_of call (isoformat (clock w2)))) w2)
        as [[t'|e'] w2']; simpl; congruence || contradiction.
  - intros p w1' Hrun.
    pose proof (invoke_archive _ _ _ _ _ Hrun) as Harch1.
    apply invoke_return in Hrun as (Hp & t & Hres & Hnode & ->).
    assert (resolve w2 p = Return t) as Hres2.
    { apply (resolve_mono w1); [congruence | | exact Hres].
      intros q. now rewrite Hfs. }
    assert (invoke self call w2
            = (Return p,
               set_fs (<[t := File (ZipArchive ZIP_DEFLATED
                                      (archive_of call
                                         (isoformat (clock w2))))]>
                         (fs w2)) w2)) as Hrun2.
    { rewrite invoke_run, <- Hp. unfold open_w. rewrite Hres2.
      rewrite <- Hfs.
      destruct (node_at (fs w1) t) as [[|c0]|];
        [now contradiction Hnode | reflexivity | reflexivity]. }
    eexists _, t. split; [exact Hrun2|]. split; [exact Hres|].
    split; [|split; [|split]].
    + rewrite Harch1. unfold archive_of. now rewrite Hm, Hr.
    + rewrite (invoke_archive _ _ _ _ _ Hrun2).
      unfold archive_of. now rewrite Hm, Hr.
    + intros q Hq. simpl. rewrite !lookup_insert_ne by congruence.
      now rewrite Hfs.
    + simpl. exact Hcwd.
Qed.

End Descriptors.

Section DescriptorsWitness.
Import Py Json Fs PackageRelease Spec.

Lemma rerun_differs_in_time_stamp_only_witness :
  Forall
    (fun call =>
       fst (invoke Sample.packager call Sample.world)
       = Return ["release-assets"; package_name call]
       /\ exists mbefore mafter rbefore rafter w2' t,
           invoke Sample.packager call Sample.later_world
           = (Return ["release-assets"; package_name call], w2')
           /\ resolve Sample.world ["release-assets"; package_name call]
              = Return t
           /\ archive_entries
                (snd (invoke Sample.packager call Sample.world))
                ["release-assets"; package_name call]
              = Some [("metadata.json",
                       mbefore ++ isoformat Sample.morning ++ mafter);
                      ("README.md",
                       rbefore ++ isoformat Sample.morning ++ rafter)]
           /\ archive_entries w2' ["release-assets"; package_name call]
              = Some [("metadata.json",
                       mbefore ++ isoformat Sample.evening ++ mafter);
                      ("README.md",
                       rbefore ++ isoformat Sample.evening ++ rafter)]
           /\ (forall q, q <> t ->
                 fs (snd (invoke Sample.packager call Sample.world)) !! q
                 = fs w2' !! q)
           /\ cwd (snd (invoke Sample.packager call Sample.world))
              = cwd w2')
    [Sample.cream; Sample.textures; Sample.presets_complete].
Proof.
  for_each_call
    ltac:(split; [vm_compute; reflexivity|];
          match goal with
          | |- context [invoke Sample.packager ?call Sample.later_world] =>
              destruct (rerun_differs_in_time_stamp_only Sample.packager call)
                as (mbefore & mafter & rbefore & rafter & H);
              exists mbefore, mafter, rbefore, rafter;
              destruct (H Sample.world Sample.later_world eq_refl eq_refl)
                as [_ Hrun];
              apply Hrun; apply run_of_outcome; vm_compute; reflexivity
          end).
Defined.

(** C3, as stated, fails.  [create_preset_package] run twice with the
    arguments of [main], in two worlds that differ in the reading of the
    clock only, writes two [metadata.json] entries of the same length whose
    CRC-32 checksums differ.  [zipfile] stores the checksum of every entry
    in the archive, outside the data of the entry, so the two archives
    differ in bytes that are no part of the time stamp. *)
Lemma rerun_changes_the_checksum :
  let p := ["release-assets"; "autovibez-presets-cream-of-the-crop.zip"] in
  let first := invoke Sample.packager Sample.cream Sample.world in
  let second :=
    invoke Sample.packager Sample.cream Behaviour.afternoon_world in
  fs Behaviour.afternoon_world = fs Sample.world
  /\ cwd Behaviour.afternoon_world = cwd Sample.world
  /\ fst first = Return p
  /\ fst second = Return p
  /\ option_map String.length (read_entry (snd first) p "metadata.json")
     = Some 295
  /\ option_map String.length (read_entry (snd second) p "metadata.json")
     = Some 295
  /\ option_map Zip.crc32 (read_entry (snd first) p "metadata.json")
     = Some 0xD91B6AE4%N
  /\ option_map Zip.crc32 (read_entry (snd second) p "metadata.json")
     = Some 0xADDA3B0F%N
  /\ 0xD91B6AE4%N <> 0xADDA3B0F%N.
Proof.
  cbv zeta. repeat split; try (vm_compute; reflexivity).
  discriminate.
Qed.

End DescriptorsWitness.

(** ** Effects on the file system *)

Section Effects.
Import Py Json Fs PackageRelease Spec.

Lemma package_name_plain (call : packaging_call) :
  has_slash (call_name call) = false ->
  components (package_name call) = [package_name call]
  /\ String.eqb (package_name call) "/" = false
  /\ String.eqb (package_name call) ".." = false.
Proof.
  intros H. split; [|destruct call; split; reflexivity].
  apply components_no_slash; [|destruct call; reflexivity].
  destruct call; simpl in *; rewrite has_slash_app, H; reflexivity.
Qed.

Lemma package_name_relative (call : packaging_call) :
  is_absolute (package_name call) = false.
Proof. destruct call; reflexivity. Qed.


Lemma mkdir_exist_ok_return (p : Path) (w w' : World) :
  mkdir_exist_ok p w = (Return tt, w') ->
  exists d,
    resolve w p = Return d
    /\ node_at (fs w') d = Some Dir
    /\ resolve w' p = Return d
    /\ (node_at (fs w) d = Some Dir -> w' = w)
    /\ (node_at (fs w) d = None -> fs w' = <[d := Dir]> (fs w))
    /\ (forall q, q <> d -> fs w' !! q = fs w !! q)
    /\ cwd w' = cwd w.
Proof.
  unfold mkdir_exist_ok.
  destruct (resolve w p) as [d|e] eqn:Hres; [|discriminate].
  destruct (node_at (fs w) d) as [[|c]|] eqn:Hnode; [| discriminate |].
  - intros [= <-]. exists d. repeat split; auto; congruence.
  - intros [= <-]. exists d.
    assert (d <> []) as Hd by (intros ->; discriminate).
    split; [reflexivity|]. split.
    { destruct d; [congruence|]. simpl. apply lookup_insert_eq. }
    split.
    { apply (resolve_mono w); [reflexivity | | exact Hres].
      apply insert_keeps_dirs. congruence. }
    split; [congruence|]. split; [reflexivity|]. split; [|reflexivity].
    intros q Hq. simpl. now rewrite lookup_insert_ne.
Qed.

Lemma init_return (out : string) (w w' : World)
    (self : ReleaseAssetPackager) :
  __init__ out w = (Return self, w') ->
  output_dir self = parse_path out
  /\ exists d,
      resolve w (output_dir self) = Return d
      /\ node_at (fs w') d = Some Dir
      /\ resolve w' (output_dir self) = Return d
      /\ (node_at (fs w) d = Some Dir -> w' = w)
      /\ (node_at (fs w) d = None -> fs w' = <[d := Dir]> (fs w))
      /\ (forall q, q <> d -> fs w' !! q = fs w !! q)
      /\ cwd w' = cwd w.
Proof.
  unfold __init__, bind, ret.
  destruct (mkdir_exist_ok _ w) as [[[]|e] w1] eqn:Hmk; [|discriminate].
  intros [= <- <-]. split; [reflexivity|].
  now apply mkdir_exist_ok_return.
Qed.

(** C5 (amended).  An invocation of a packaging operation that returns
    has written exactly one file, the archive at the returned path, which
    is the output directory joined with the package file name; every other
    path of the file system and the working directory are as before.  When
    the name contains no slash the file lies directly in the output
    directory.  Constructing the packager leaves the output directory in
    place: it is created when absent and nothing else changes. *)
Theorem packaging_writes_one_file :
  (forall self call w w' p,
      invoke self call w = (Return p, w') ->
      p = joinpath (output_dir self) (package_name call)
      /\ exists t archive,
          resolve w p = Return t
          /\ fs w' = <[t := File archive]> (fs w)
          /\ read_file w' p = Some archive
          /\ (forall q, q <> t -> fs w' !! q = fs w !! q)
          /\ cwd w' = cwd w
          /\ (has_slash (call_name call) = false ->
              exists d, resolve w (output_dir self) = Return d
                        /\ node_at (fs w) d = Some Dir
                        /\ t = (d ++ [package_name call])%list))
  /\ (forall out w w' self,
      __init__ out w = (Return self, w') ->
      output_dir self = parse_path out
      /\ exists d,
          resolve w (output_dir self) = Return d
          /\ node_at (fs w') d = Some Dir
          /\ resolve w' (output_dir self) = Return d
          /\ (node_at (fs w) d = Some Dir -> w' = w)
          /\ (node_at (fs w) d = None -> fs w' = <[d := Dir]> (fs w))
          /\ (forall q, q <> d -> fs w' !! q = fs w !! q)
          /\ cwd w' = cwd w).
Proof.
  split.
  - intros self call w w' p H.
    apply invoke_return in H as (Hp & t & Hres & Hnode & ->).
    split; [exact Hp|].
    exists t, (ZipArchive ZIP_DEFLATED (archive_of call (isoformat (clock w)))).
    split; [exact Hres|]. split; [reflexivity|].
    split; [now apply read_file_written|].
    split; [intros q Hq; simpl; now rewrite lookup_insert_ne|].
    split; [reflexivity|].
    intros Hslash.
    destruct (package_name_plain call Hslash) as (Hc & Hroot & Hup).
    unfold joinpath in Hp.
    rewrite package_name_relative, Hc in Hp. subst p.
    now apply resolve_child in Hres.
  - intros out w w' self. apply init_return.
Qed.

Lemma packaging_writes_one_file_witness :
  Forall
    (fun call =>
       fst (invoke Sample.packager call Sample.world)
       = Return ["release-assets"; package_name call]
       /\ exists t archive,
           resolve Sample.world ["release-assets"; package_name call]
           = Return t
           /\ fs (snd (invoke Sample.packager call Sample.world))
              = <[t := File archive]> (fs Sample.world)
           /\ (forall q, q <> t ->
                 fs (snd (invoke Sample.packager call Sample.world)) !! q
                 = fs Sample.world !! q)
           /\ t = ["work"; "release-assets"; package_name call])
    [Sample.cream; Sample.textures; Sample.presets_complete]
  /\ exists d,
      resolve Sample.bare_world ["release-assets"] = Return d
      /\ node_at (fs (snd (__init__ "release-assets" Sample.bare_world))) d
         = Some Dir
      /\ fs (snd (__init__ "release-assets" Sample.bare_world))
         = <[d := Dir]> (fs Sample.bare_world).
Proof.
  destruct packaging_writes_one_file as (Hreturn & Hinit).
  split.
  - for_each_call
      ltac:(split; [vm_compute; reflexivity|];
            match goal with
            | |- context [invoke Sample.packager ?call Sample.world] =>
                destruct (Hreturn Sample.packager call Sample.world
                            (snd (invoke Sample.packager call Sample.world))
                            ["release-assets"; package_name call])
                  as (_ & t & archive & Hres & Hfs & _ & Hframe & _ & Hdir);
                [ apply run_of_outcome; vm_compute; reflexivity
                | exists t, archive;
                  split; [exact Hres|]; split; [exact Hfs|];
                  split; [exact Hframe|];
                  destruct (Hdir eq_refl) as (d & Hd & _ & Ht);
                  rewrite Ht; vm_compute in Hd;
                  injection Hd as <-; reflexivity ]
            end).
  - destruct (Hinit "release-assets" Sample.bare_world
                (snd (__init__ "release-assets" Sample.bare_world))
                Sample.packager)
      as (_ & d & Hres & Hdir & _ & _ & Hnew & _).
    { apply run_of_outcome. vm_compute. reflexivity. }
    exists d. split; [exact Hres|]. split; [exact Hdir|].
    apply Hnew.
    assert (d = ["work"; "release-assets"]) as ->
      by (vm_compute in Hres; congruence).
    vm_compute. reflexivity.
Defined.

(** C5, as stated, fails: with the name [x/../../y], and a directory
    [autovibez-presets-x] present in the output directory,
    [create_preset_package] returns after writing the archive to [y.zip] in
    the working directory, which is not below the output directory. *)
Lemma archive_written_outside_output_dir :
  let run := invoke Sample.packager Sample.traversal Sample.nested_world in
  fst run
  = Return ["release-assets"; "autovibez-presets-x"; ".."; ".."; "y.zip"]
  /\ resolve Sample.nested_world (output_dir Sample.packager)
     = Return ["work"; "release-assets"]
  /\ resolve Sample.nested_world
       ["release-assets"; "autovibez-presets-x"; ".."; ".."; "y.zip"]
     = Return ["work"; "y.zip"]
  /\ fs Sample.nested_world !! ["work"; "y.zip"] = None
  /\ fs (snd run) !! ["work"; "y.zip"]
     = Some (File (ZipArchive ZIP_DEFLATED
                     (archive_of Sample.traversal
                        (isoformat Sample.morning))))
  /\ ~ below ["work"; "release-assets"] ["work"; "y.zip"].
Proof.
  cbv zeta. repeat split; try (vm_compute; reflexivity).
  intros (rel & _ & H). discriminate H.
Qed.

End Effects.

(** ** The installation guide and the failures *)

Section GuideAndFailures.
Import Py Json Fs PackageRelease Spec.

Lemma guide_run (self : ReleaseAssetPackager) (w : World) :
  create_installation_guide self w
  = match open_w (joinpath (output_dir self) "INSTALL_ASSETS.md")
            (Text guide_content) w with
    | (Return _, w') =>
        (Return (joinpath (output_dir self) "INSTALL_ASSETS.md"), w')
    | (Raise e, w') => (Raise e, w')
    end.
Proof. exact (text_session _ _ _ w). Qed.





Lemma open_w_raise_iff (p : Path) (c c' : content) (w w' : World) (e : exn) :
  open_w p c w = (Raise e, w') <-> open_w p c' w = (Raise e, w').
Proof.
  unfold open_w. destruct (resolve w p) as [t|e0]; [|reflexivity].
  destruct (node_at (fs w) t) as [[|c0]|]; split; congruence.
Qed.


End GuideAndFailures.

(** ** Reruns and calls that share or do not share a file name *)

Section Composition.
Import Py Json Fs PackageRelease Spec Behaviour.

(** Constructing the packager a second time changes nothing: the output
    directory that the first construction left is accepted as it is. *)
Theorem init_is_idempotent (out : string) (w w' : World)
    (self : ReleaseAssetPackager) :
  __init__ out w = (Return self, w') ->
  __init__ out w' = (Return self, w').
Proof.
  intros H. apply init_return in H as (Hout & d & _ & Hdir & Hres & _).
  destruct self as [dir]. simpl in *. subst dir.
  unfold __init__, bind, ret, mkdir_exist_ok. simpl.
  rewrite Hres, Hdir. reflexivity.
Qed.

Lemma init_is_idempotent_witness :
  __init__ "release-assets" (snd (__init__ "release-assets" Sample.bare_world))
  = (Return Sample.packager,
     snd (__init__ "release-assets" Sample.bare_world)).
Proof.
  apply (init_is_idempotent "release-assets" Sample.bare_world).
  apply run_of_outcome. vm_compute. reflexivity.
Defined.

Lemma open_w_again (p : Path) (c c' : content) (w : World)
    (t : list string) :
  resolve w p = Return t ->
  node_at (fs w) t <> Some Dir ->
  open_w p c' (set_fs (<[t := File c]> (fs w)) w)
  = (Return t, set_fs (<[t := File c']> (fs w)) w).
Proof.
  intros Hres Hnode. unfold open_w.
  rewrite (resolve_mono w _ p t);
    [ | reflexivity | now apply insert_keeps_dirs | exact Hres].
  assert (t <> []) as Ht by (intros ->; now apply Hnode).
  assert (node_at (fs (set_fs (<[t := File c]> (fs w)) w)) t
          = Some (File c)) as ->.
  { destruct t; [congruence|]. simpl. apply lookup_insert_eq. }
  unfold set_fs. simpl. now rewrite insert_insert_eq.
Qed.

(** The guide is written over whatever file was there, nothing else is
    touched, and writing it again changes nothing. *)
Theorem guide_overwrites_and_is_idempotent (self : ReleaseAssetPackager)
    (w w' : World) (p : Path) :
  create_installation_guide self w = (Return p, w') ->
  (exists t,
      resolve w p = Return t
      /\ fs w' = <[t := File (Text guide_content)]> (fs w)
      /\ cwd w' = cwd w /\ clock w' = clock w)
  /\ create_installation_guide self w' = (Return p, w').
Proof.
  rewrite guide_run.
  destruct (open_w _ _ w) as [[t|e] w1] eqn:Hopen; [|discriminate].
  intros [= <- <-]. apply open_w_return in Hopen as (Hres & Hnode & ->).
  split.
  - exists t. repeat split; auto.
  - rewrite guide_run, (open_w_again _ _ _ w t Hres Hnode). reflexivity.
Qed.

Lemma guide_overwrites_and_is_idempotent_witness :
  (exists t,
      resolve Sample.world ["release-assets"; "INSTALL_ASSETS.md"] = Return t
      /\ fs (snd (create_installation_guide Sample.packager Sample.world))
         = <[t := File (Text guide_content)]> (fs Sample.world)
      /\ cwd (snd (create_installation_guide Sample.packager Sample.world))
         = cwd Sample.world
      /\ clock (snd (create_installation_guide Sample.packager Sample.world))
         = clock Sample.world)
  /\ create_installation_guide Sample.packager
       (snd (create_installation_guide Sample.packager Sample.world))
     = (Return ["release-assets"; "INSTALL_ASSETS.md"],
        snd (create_installation_guide Sample.packager Sample.world)).
Proof.
  apply (guide_overwrites_and_is_idempotent Sample.packager Sample.world).
  apply run_of_outcome. vm_compute. reflexivity.
Defined.

(** The later of two packaging calls with the same file name wins: after
    both, the world is what the later call alone would have left, whatever
    the earlier call wrote.  In particular an operation run again replaces
    its archive; it does not add to it. *)
Theorem later_call_replaces_earlier (self : ReleaseAssetPackager)
    (call1 call2 : packaging_call) (w w1 : World) (p : Path)
    (c : datetime) :
  invoke self call1 w = (Return p, w1) ->
  package_name call2 = package_name call1 ->
  invoke self call2 (with_clock c w1) = invoke self call2 (with_clock c w).
Proof.
  intros H Hname.
  apply invoke_return in H as (Hp & t & Hres & Hnode & ->).
  assert (resolve (with_clock c w) p = Return t) as Hres'.
  { apply (resolve_mono w); [reflexivity | trivial | exact Hres]. }
  set (later := ZipArchive ZIP_DEFLATED (archive_of call2 (isoformat c))).
  assert (open_w p later
            (with_clock c
               (set_fs (<[t := File (ZipArchive ZIP_DEFLATED
                                       (archive_of call1
                                          (isoformat (clock w))))]>
                          (fs w)) w))
          = (Return t, set_fs (<[t := File later]> (fs w)) (with_clock c w)))
    as Hafter
    by exact (open_w_again p _ later (with_clock c w) t Hres' Hnode).
  assert (open_w p later (with_clock c w)
          = (Return t, set_fs (<[t := File later]> (fs w)) (with_clock c w)))
    as Halone.
  { unfold open_w. rewrite Hres'. simpl.
    destruct (node_at (fs w) t) as [[|c0]|];
      [now contradiction Hnode | reflexivity | reflexivity]. }
  rewrite !invoke_run, Hname, <- Hp. cbn [clock with_clock set_fs].
  fold later. unfold with_clock, set_fs in *. simpl in *.
  rewrite Hafter, Halone. reflexivity.
Qed.

Lemma later_call_replaces_earlier_witness :
  invoke Sample.packager Sample.presets_complete
    (with_clock Sample.evening
       (snd (invoke Sample.packager
               (Preset "complete" "https://example.org" "Everything")
               Sample.world)))
  = invoke Sample.packager Sample.presets_complete
      (with_clock Sample.evening Sample.world)
  /\ Forall
       (fun call =>
          fst (invoke Sample.packager call Sample.world)
          = Return ["release-assets"; package_name call]
          /\ invoke Sample.packager call
               (with_clock Sample.evening
                  (snd (invoke Sample.packager call Sample.world)))
             = invoke Sample.packager call
                 (with_clock Sample.evening Sample.world))
       [Sample.cream; Sample.textures; Sample.presets_complete].
Proof.
  split.
  - apply (later_call_replaces_earlier Sample.packager
             (Preset "complete" "https://example.org" "Everything")
             Sample.presets_complete Sample.world _
             ["release-assets"; "autovibez-presets-complete.zip"]).
    + apply run_of_outcome. vm_compute. reflexivity.
    + reflexivity.
  - for_each_call
      ltac:(split;
            [ vm_compute; reflexivity
            | eapply (later_call_replaces_earlier Sample.packager _ _
                        Sample.world);
              [apply run_of_outcome; vm_compute; reflexivity | reflexivity] ]).
Defined.

Lemma invoke_intro (self : ReleaseAssetPackager) (call : packaging_call)
    (w : World) (t : list string) :
  resolve w (joinpath (output_dir self) (package_name call)) = Return t ->
  node_at (fs w) t <> Some Dir ->
  invoke self call w
  = (Return (joinpath (output_dir self) (package_name call)),
     set_fs (<[t := File (ZipArchive ZIP_DEFLATED
                            (archive_of call (isoformat (clock w))))]>
               (fs w)) w).
Proof.
  intros Hres Hnode. rewrite invoke_run. unfold open_w. rewrite Hres.
  destruct (node_at (fs w) t) as [[|c0]|];
    [now contradiction Hnode | reflexivity | reflexivity].
Qed.

(** Where a call with a name without slash puts its archive. *)
Lemma plain_target (self : ReleaseAssetPackager) (call : packaging_call)
    (w : World) (t : list string) :
  has_slash (call_name call) = false ->
  resolve w (joinpath (output_dir self) (package_name call)) = Return t ->
  exists d, resolve w (output_dir self) = Return d
            /\ node_at (fs w) d = Some Dir
            /\ t = (d ++ [package_name call])%list.
Proof.
  intros Hslash Hres.
  destruct (package_name_plain call Hslash) as (Hc & Hroot & Hup).
  unfold joinpath in Hres. rewrite package_name_relative, Hc in Hres.
  now apply resolve_child in Hres.
Qed.

Lemma insert_file_dirs (files : gmap (list string) node) (t : list string)
    (c : content) (q : list string) :
  node_at (<[t := File c]> files) q = Some Dir ->
  node_at files q = Some Dir.
Proof.
  destruct q as [|x q]; [trivial|]. simpl.
  destruct (decide (t = x :: q)) as [->|Hne].
  - rewrite lookup_insert_eq. discriminate.
  - now rewrite lookup_insert_ne.
Qed.

Lemma node_at_insert_ne (files : gmap (list string) node)
    (t q : list string) (n : node) :
  t <> q -> q <> [] ->
  node_at (<[t := n]> files) q = node_at files q.
Proof.
  intros Hne Hq. destruct q; [congruence|]. simpl.
  now rewrite lookup_insert_ne.
Qed.

(** Two packaging calls with names without slash and different file names
    do not disturb each other: the later call leaves the archive of the
    earlier one as it was, and the two calls in the other order, each with
    the reading of the clock it had, return the same paths and leave the
    same file system.  The order of the two calls shows in the time stamps
    only. *)
Theorem calls_with_different_names_commute (self : ReleaseAssetPackager)
    (call1 call2 : packaging_call) (w w1 w2 : World) (p1 p2 : Path)
    (c1 c2 : datetime) :
  invoke self call1 (with_clock c1 w) = (Return p1, w1) ->
  invoke self call2 (with_clock c2 w1) = (Return p2, w2) ->
  has_slash (call_name call1) = false ->
  has_slash (call_name call2) = false ->
  package_name call1 <> package_name call2 ->
  archive_entries w2 p1 = archive_entries w1 p1
  /\ exists v1 v2,
      invoke self call2 (with_clock c2 w) = (Return p2, v1)
      /\ invoke self call1 (with_clock c1 v1) = (Return p1, v2)
      /\ fs v2 = fs w2
      /\ cwd v2 = cwd w2.
Proof.
  intros H1 H2 Hs1 Hs2 Hne.
  apply invoke_return in H1 as (Hp1 & t1 & Hres1 & Hnode1 & ->).
  apply invoke_return in H2 as (Hp2 & t2 & Hres2 & Hnode2 & ->).
  subst p1 p2.
  cbn [clock fs cwd with_clock set_fs] in *.
  set (a1 := File (ZipArchive ZIP_DEFLATED
                     (archive_of call1 (isoformat c1)))) in *.
  set (a2 := File (ZipArchive ZIP_DEFLATED
                     (archive_of call2 (isoformat c2)))) in *.
  destruct (plain_target _ _ _ _ Hs1 Hres1) as (d1 & Hd1 & Hdir1 & ->).
  destruct (plain_target _ _ _ _ Hs2 Hres2) as (d2 & Hd2 & Hdir2 & ->).
  cbn [clock fs cwd with_clock set_fs] in *.
  assert (resolve w (output_dir self) = Return d1) as Hd1w
    by (apply (resolve_mono (with_clock c1 w));
        [reflexivity | trivial | exact Hd1]).
  assert (d2 = d1) as ->.
  { assert (resolve
              (with_clock c2
                 (set_fs (<[(d1 ++ [package_name call1])%list := a1]> (fs w))
                    (with_clock c1 w)))
              (output_dir self) = Return d1) as E.
    { apply (resolve_mono w); [reflexivity | | exact Hd1w].
      now apply insert_keeps_dirs. }
    congruence. }
  assert ((d1 ++ [package_name call1])%list
          <> (d1 ++ [package_name call2])%list) as Ht.
  { intros E. apply app_inv_head in E. congruence. }
  assert (forall n : string, (d1 ++ [n])%list <> []) as Hcons
    by (intros n E; now apply app_eq_nil in E as [_ ?]).
  assert (resolve (with_clock c2 w)
            (joinpath (output_dir self) (package_name call2))
          = Return (d1 ++ [package_name call2])%list) as Hres2w.
  { eapply resolve_mono; [ | | exact Hres2]; [reflexivity|].
    intros q. apply insert_file_dirs. }
  assert (node_at (fs w) (d1 ++ [package_name call2]) <> Some Dir) as Hnode2w.
  { rewrite node_at_insert_ne in Hnode2 by auto. exact Hnode2. }
  split.
  - unfold archive_entries, read_file.
    rewrite (resolve_mono (with_clock c1 w) _ _
               (d1 ++ [package_name call1])%list);
      [ | reflexivity | | exact Hres1].
    + rewrite (resolve_mono (with_clock c1 w) _ _
                 (d1 ++ [package_name call1])%list);
        [ | reflexivity | | exact Hres1].
      * simpl. rewrite lookup_insert_ne by congruence. reflexivity.
      * simpl. now apply insert_keeps_dirs.
    + simpl. intros q Hq. apply insert_keeps_dirs.
      * rewrite node_at_insert_ne by auto. exact Hnode2w.
      * now apply insert_keeps_dirs.
  - eexists _, _. split; [|split; [|split]].
    + apply (invoke_intro self call2 (with_clock c2 w) _ Hres2w Hnode2w).
    + apply (invoke_intro self call1 _ (d1 ++ [package_name call1])%list).
      * eapply resolve_mono; [ | | exact Hres1]; [reflexivity|].
        simpl. now apply insert_keeps_dirs.
      * simpl. rewrite node_at_insert_ne by auto. exact Hnode1.
    + simpl. fold a1 a2.
      apply (insert_insert_ne _ (d1 ++ [package_name call1])%list
               (d1 ++ [package_name call2])%list). exact Ht.
    + reflexivity.
Qed.

Lemma calls_with_different_names_commute_witness :
  Forall
    (fun '(call1, call2) =>
       let w1 :=
         snd (invoke Sample.packager call1
                (with_clock Sample.morning Sample.world)) in
       let w2 :=
         snd (invoke Sample.packager call2 (with_clock Sample.evening w1)) in
       archive_entries w2 ["release-assets"; package_name call1]
       = archive_entries w1 ["release-assets"; package_name call1]
       /\ exists v1 v2,
           invoke Sample.packager call2
             (with_clock Sample.evening Sample.world)
           = (Return ["release-assets"; package_name call2], v1)
           /\ invoke Sample.packager call1 (with_clock Sample.morning v1)
              = (Return ["release-assets"; package_name call1], v2)
           /\ fs v2 = fs w2
           /\ cwd v2 = cwd w2)
    [ (Sample.cream, Sample.textures);
      (Sample.textures, Sample.presets_complete);
      (Sample.presets_complete, Sample.cream) ].
Proof.
  for_each_call
    ltac:(cbv beta iota zeta;
          match goal with
          | |- context [invoke Sample.packager ?call2
                          (with_clock Sample.evening
                             (snd (invoke Sample.packager ?call1 _)))] =>
              apply (calls_with_different_names_commute Sample.packager
                       call1 call2 Sample.world
                       (snd (invoke Sample.packager call1
                               (with_clock Sample.morning Sample.world)))
                       (snd (invoke Sample.packager call2
                               (with_clock Sample.evening
                                  (snd (invoke Sample.packager call1
                                          (with_clock Sample.morning
                                             Sample.world))))))
                       ["release-assets"; package_name call1]
                       ["release-assets"; package_name call2]
                       Sample.morning Sample.evening);
              [ apply run_of_outcome; vm_compute; reflexivity
              | apply run_of_outcome; vm_compute; reflexivity
              | reflexivity | reflexivity | discriminate ]
          end).
Defined.

Lemma append_cancel_r (a b s : string) : a ++ s = b ++ s -> a = b.
Proof.
  revert b. induction a as [|x a IH]; intros [|y b] H.
  - reflexivity.
  - apply (f_equal String.length) in H. simpl in H.
    rewrite length_append in H. lia.
  - apply (f_equal String.length) in H. simpl in H.
    rewrite length_append in H. lia.
  - simpl in H. injection H as -> H. f_equal. now apply IH.
Qed.

(** The file name tells the name apart: two calls of the same operation
    have the same file name only when they have the same name, and a preset
    package and a texture package never share a file name. *)
Theorem package_name_tells_the_name :
  (forall n1 u1 d1 n2 u2 d2,
      package_name (Preset n1 u1 d1) = package_name (Preset n2 u2 d2) ->
      n1 = n2)
  /\ (forall n1 u1 d1 n2 u2 d2,
      package_name (Texture n1 u1 d1) = package_name (Texture n2 u2 d2) ->
      n1 = n2)
  /\ (forall k1 n1 d1 k2 n2 d2,
      package_name (Combined k1 n1 d1) = package_name (Combined k2 n2 d2) ->
      n1 = n2)
  /\ (forall n1 u1 d1 n2 u2 d2,
      package_name (Preset n1 u1 d1) <> package_name (Texture n2 u2 d2)).
Proof.
  repeat split.
  - intros n1 u1 d1 n2 u2 d2 H. simpl in H. injection H as H.
    now apply append_cancel_r in H.
  - intros n1 u1 d1 n2 u2 d2 H. simpl in H. injection H as H.
    now apply append_cancel_r in H.
  - intros k1 n1 d1 k2 n2 d2 H. simpl in H. injection H as H.
    now apply append_cancel_r in H.
  - intros n1 u1 d1 n2 u2 d2 H. discriminate H.
Qed.

Lemma package_name_tells_the_name_witness :
  "cream" = "cream" /\ "stone" = "stone" /\ "presets" = "presets".
Proof.
  destruct package_name_tells_the_name as (Hp & Ht & Hc & _).
  split; [|split].
  - apply (Hp "cream" "https://example.org/a" "first"
              "cream" "https://example.org/b" "second"). reflexivity.
  - apply (Ht "stone" "https://example.org/a" "first"
              "stone" "https://example.org/b" "second"). reflexivity.
  - apply (Hc ["A"] "presets" "first" ["B"; "C"] "presets" "second").
    reflexivity.
Defined.

End Composition.

(** ** What the two documents of an archive say *)

Section Documents.
Import Py Json Fs PackageRelease Spec Behaviour.

(** The descriptor read back from the archive gives the description as it
    was passed, the time stamp of the call and the version [1.0.0], and,
    when the name is an ASCII string, the display name made from the
    title-cased name. *)
Theorem descriptor_fields_read_back (self : ReleaseAssetPackager)
    (call : packaging_call) (w w' : World) (p : Path) :
  invoke self call w = (Return p, w') ->
  exists v,
    read_metadata w' p = Some v
    /\ get "description" v = Some (PStr (description_of call))
    /\ get "created" v = Some (PStr (isoformat (clock w)))
    /\ get "version" v = Some (PStr "1.0.0")
    /\ (isascii (call_name call) = true ->
        get "name" v = Some (PStr (display_name call))).
Proof.
  intros H. apply invoke_metadata in H as (text & Hread & Hloads).
  exists (metadata_of call (isoformat (clock w))). split.
  - unfold read_metadata. now rewrite Hread.
  - destruct call; repeat split; reflexivity.
Qed.

Lemma descriptor_fields_read_back_witness :
  Forall
    (fun call =>
       fst (invoke Sample.packager call Sample.world)
       = Return ["release-assets"; package_name call]
       /\ exists v,
           read_metadata (snd (invoke Sample.packager call Sample.world))
             ["release-assets"; package_name call] = Some v
           /\ get "description" v
              = Some (PStr (String dquote (String LF (String backslash
                                                        "mixed"))))
           /\ get "created" v = Some (PStr "2024-03-09T07:05:00.001234")
           /\ get "version" v = Some (PStr "1.0.0")
           /\ get "name" v = Some (PStr (display_name call)))
    [ Preset "a b" "https://example.org"
        (String dquote (String LF (String backslash "mixed")));
      Texture "a b" "https://example.org"
        (String dquote (String LF (String backslash "mixed")));
      Combined ["One"] "a b"
        (String dquote (String LF (String backslash "mixed"))) ]
  /\ map display_name
       [ Preset "a b" "https://example.org" "d";
         Texture "a b" "https://example.org" "d";
         Combined ["One"] "a b" "d" ]
     = [ "AutoVibez Presets - A B"; "AutoVibez Textures - A B";
         "AutoVibez A B - Complete" ].
Proof.
  split; [|reflexivity].
  for_each_call
    ltac:(split; [vm_compute; reflexivity|];
          match goal with
          | |- context [invoke Sample.packager ?call Sample.world] =>
              destruct (descriptor_fields_read_back Sample.packager call
                          Sample.world
                          (snd (invoke Sample.packager call Sample.world))
                          ["release-assets"; package_name call])
                as (v & Hread & Hdescription & Hcreated & Hversion & Hname);
              [ apply run_of_outcome; vm_compute; reflexivity
              | exists v; repeat split;
                [ exact Hread | exact Hdescription | exact Hcreated
                | exact Hversion | exact (Hname eq_refl) ] ]
          end).
Defined.

Lemma suffix_here (suffix : string) :
  exists before, suffix = before ++ suffix.
Proof. now exists EmptyString. Qed.

Lemma suffix_cons (c : ascii) (text suffix : string) :
  (exists before, text = before ++ suffix) ->
  exists before, String c text = before ++ suffix.
Proof. intros (b & ->). now exists (String c b). Qed.

Lemma suffix_app (prefix text suffix : string) :
  (exists before, text = before ++ suffix) ->
  exists before, prefix ++ text = before ++ suffix.
Proof. intros (b & ->). exists (prefix ++ b). now rewrite append_assoc. Qed.

Lemma readme_trailer (call : packaging_call) (created : string) :
  exists before,
    readme_of call created
    = before ++ "Generated on: " ++ created ++ chr10.
Proof.
  destruct call; simpl;
    repeat first [ apply suffix_here | apply suffix_cons | apply suffix_app ].
Qed.

(** The README closes with the line [Generated on:] followed by the very
    time stamp that the descriptor of the same archive has under
    [created]. *)
Theorem readme_and_descriptor_share_the_time_stamp
    (self : ReleaseAssetPackager) (call : packaging_call) (w w' : World)
    (p : Path) :
  invoke self call w = (Return p, w') ->
  exists created before v,
    read_entry w' p "README.md"
    = Some (before ++ "Generated on: " ++ created ++ chr10)
    /\ read_metadata w' p = Some v
    /\ get "created" v = Some (PStr created).
Proof.
  intros H.
  pose proof (invoke_readme _ _ _ _ _ H) as Hreadme.
  apply invoke_metadata in H as (text & Hread & Hloads).
  destruct (readme_trailer call (isoformat (clock w))) as (before & Hb).
  exists (isoformat (clock w)), before,
         (metadata_of call (isoformat (clock w))).
  split; [now rewrite Hreadme, Hb|]. split.
  - unfold read_metadata. now rewrite Hread.
  - destruct call; reflexivity.
Qed.

Lemma readme_and_descriptor_share_the_time_stamp_witness :
  Forall
    (fun call =>
       fst (invoke Sample.packager call Sample.world)
       = Return ["release-assets"; package_name call]
       /\ exists created before v,
           read_entry (snd (invoke Sample.packager call Sample.world))
             ["release-assets"; package_name call] "README.md"
           = Some (before ++ "Generated on: " ++ created ++ chr10)
           /\ read_metadata (snd (invoke Sample.packager call Sample.world))
                ["release-assets"; package_name call]
              = Some v
           /\ get "created" v = Some (PStr created))
    [Sample.textures; Sample.cream; Sample.presets_complete].
Proof.
  for_each_call
    ltac:(split;
          [ vm_compute; reflexivity
          | eapply (readme_and_descriptor_share_the_time_stamp
                      Sample.packager _ Sample.world);
            apply run_of_outcome; vm_compute; reflexivity ]).
Defined.

End Documents.

(** ** Nothing is removed *)

Section Growth.
Import Py Json Fs PackageRelease Spec Behaviour.

Lemma grows_refl (w : World) : grows w w.
Proof. repeat split; auto. Qed.

Lemma grows_trans (w1 w2 w3 : World) :
  grows w1 w2 -> grows w2 w3 -> grows w1 w3.
Proof.
  intros (Ha & Hb & Hc & Hd) (Ha' & Hb' & Hc' & Hd').
  repeat split; auto; congruence.
Qed.

Lemma grows_insert (w : World) (t : list string) (n : node) :
  node_at (fs w) t <> Some Dir ->
  grows w (set_fs (<[t := n]> (fs w)) w).
Proof.
  intros Hnode. repeat split; simpl.
  - intros q Hq. destruct (decide (t = q)) as [->|Hne].
    + rewrite lookup_insert_eq. eauto.
    + now rewrite lookup_insert_ne.
  - now apply insert_keeps_dirs.
Qed.

Lemma open_w_grows (p : Path) (c : content) (w : World) :
  grows w (snd (open_w p c w)).
Proof.
  unfold open_w. destruct (resolve w p) as [t|e]; [|apply grows_refl].
  destruct (node_at (fs w) t) as [[|c0]|] eqn:Hnode; simpl;
    [apply grows_refl | |]; apply grows_insert; congruence.
Qed.

Lemma invoke_grows (self : ReleaseAssetPackager) (call : packaging_call)
    (w : World) :
  grows w (snd (invoke self call w)).
Proof.
  rewrite invoke_run.
  pose proof (open_w_grows
                (joinpath (output_dir self) (package_name call))
                (ZipArchive ZIP_DEFLATED
                   (archive_of call (isoformat (clock w)))) w) as H.
  destruct (open_w _ _ w) as [[t|e] w1]; exact H.
Qed.

Lemma guide_grows (self : ReleaseAssetPackager) (w : World) :
  grows w (snd (create_installation_guide self w)).
Proof.
  rewrite guide_run.
  pose proof (open_w_grows (joinpath (output_dir self) "INSTALL_ASSETS.md")
                (Text guide_content) w) as H.
  destruct (open_w _ _ w) as [[t|e] w1]; exact H.
Qed.

Lemma init_grows (out : string) (w : World) :
  grows w (snd (__init__ out w)).
Proof.
  unfold __init__, bind, ret, mkdir_exist_ok. simpl.
  destruct (resolve w (parse_path out)) as [d|e]; [|apply grows_refl].
  destruct (node_at (fs w) d) as [[|c0]|] eqn:Hnode; simpl;
    [apply grows_refl | apply grows_refl |].
  apply grows_insert. congruence.
Qed.

Lemma bind_grows {A B : Type} (m : M A) (k : A -> M B) :
  (forall w, grows w (snd (m w))) ->
  (forall a w, grows w (snd (k a w))) ->
  forall w, grows w (snd (bind m k w)).
Proof.
  intros Hm Hk w. unfold bind. specialize (Hm w).
  destruct (m w) as [[a|e] w1]; simpl in *; [|exact Hm].
  eapply grows_trans; [exact Hm | apply Hk].
Qed.

(** The script only adds to the file system.  Whatever the outcome of an
    operation, of the construction of the packager or of the whole of
    [main], every path that existed is still there (a regular file may
    have been written anew) and every directory is still a directory; the
    working directory is the same. *)
Theorem nothing_is_removed :
  (forall self call w, grows w (snd (invoke self call w)))
  /\ (forall self w, grows w (snd (create_installation_guide self w)))
  /\ (forall out w, grows w (snd (__init__ out w)))
  /\ (forall w, grows w (snd (main w))).
Proof.
  split; [exact invoke_grows|]. split; [exact guide_grows|].
  split; [exact init_grows|].
  unfold main.
  apply bind_grows; [apply init_grows|]. intros packager.
  apply bind_grows;
    [exact (invoke_grows packager
              (Preset "cream-of-the-crop" _ _))|]. intros _.
  apply bind_grows;
    [exact (invoke_grows packager
              (Preset "milkdrop-original" _ _))|]. intros _.
  apply bind_grows;
    [exact (invoke_grows packager
              (Texture "milkdrop-textures" _ _))|]. intros _.
  apply bind_grows;
    [exact (invoke_grows packager (Combined _ "presets" _))|]. intros _.
  apply bind_grows;
    [exact (invoke_grows packager (Combined _ "textures" _))|]. intros _.
  apply bind_grows; [apply guide_grows|]. intros _ w. apply grows_refl.
Qed.

Lemma open_w_no_new_dir (p : Path) (c : content) (w : World)
    (q : list string) :
  node_at (fs (snd (open_w p c w))) q = Some Dir ->
  node_at (fs w) q = Some Dir.
Proof.
  unfold open_w. destruct (resolve w p) as [t|e]; [|trivial].
  destruct (node_at (fs w) t) as [[|c0]|]; simpl; trivial;
    apply insert_file_dirs.
Qed.

(** Only the construction of the packager makes a directory, and at most
    one: after a packaging operation or the writing of the guide, whatever
    the outcome, the directories are exactly those that were there; after
    the construction the only directory that can be new is the one the
    output directory resolves to. *)
Theorem only_the_construction_makes_a_directory :
  (forall self call w q,
      node_at (fs (snd (invoke self call w))) q = Some Dir
      <-> node_at (fs w) q = Some Dir)
  /\ (forall self w q,
      node_at (fs (snd (create_installation_guide self w))) q = Some Dir
      <-> node_at (fs w) q = Some Dir)
  /\ (forall out w q,
      node_at (fs (snd (__init__ out w))) q = Some Dir ->
      node_at (fs w) q = Some Dir
      \/ resolve w (parse_path out) = Return q).
Proof.
  split; [|split].
  - intros self call w q. split; [|apply invoke_grows].
    rewrite invoke_run.
    pose proof (open_w_no_new_dir
                  (joinpath (output_dir self) (package_name call))
                  (ZipArchive ZIP_DEFLATED
                     (archive_of call (isoformat (clock w)))) w q) as H.
    destruct (open_w _ _ w) as [[t|e] w1]; exact H.
  - intros self w q. split; [|apply guide_grows].
    rewrite guide_run.
    pose proof (open_w_no_new_dir
                  (joinpath (output_dir self) "INSTALL_ASSETS.md")
                  (Text guide_content) w q) as H.
    destruct (open_w _ _ w) as [[t|e] w1]; exact H.
  - intros out w q. unfold __init__, bind, ret, mkdir_exist_ok. simpl.
    destruct (resolve w (parse_path out)) as [d|e]; [|now left].
    destruct (node_at (fs w) d) as [[|c0]|]; simpl; try (now left).
    destruct (decide (d = q)) as [->|Hne]; [now right|].
    destruct q as [|x q]; [now left|]. simpl.
    rewrite lookup_insert_ne by exact Hne. now left.
Qed.

Lemma only_the_construction_makes_a_directory_witness :
  node_at (fs Sample.bare_world) ["work"; "release-assets"] = Some Dir
  \/ resolve Sample.bare_world (parse_path "release-assets")
     = Return ["work"; "release-assets"].
Proof.
  destruct only_the_construction_makes_a_directory as (_ & _ & Hinit).
  apply (Hinit "release-assets" Sample.bare_world).
  vm_compute. reflexivity.
Defined.

End Growth.

(** ** Sequences of calls and the whole run *)

Section WholeRun.
Import Py Json Fs PackageRelease Spec Behaviour.



Lemma snoc_not_nil (d : list string) (n : string) : (d ++ [n])%list <> [].
Proof. intros E. now apply app_eq_nil in E as [_ ?]. Qed.

Lemma node_at_snoc (files : gmap (list string) node) (d : list string)
    (n : string) :
  node_at files (d ++ [n]) = files !! (d ++ [n])%list.
Proof.
  destruct (d ++ [n])%list eqn:E; [|reflexivity].
  now apply snoc_not_nil in E.
Qed.



(** [main] is the construction, the five calls and the guide. *)
Lemma main_as_sequence (w : World) :
  main w
  = (packager <- __init__ "release-assets" ;;
     invoke_all packager main_calls ;;
     create_installation_guide packager ;;
     ret tt)%py w.
Proof.
  unfold main, main_calls. cbn [invoke_all invoke]. unfold bind, ret.
  destruct (__init__ "release-assets" w) as [[packager|e] w1];
    [|reflexivity].
  repeat match goal with
         | |- context [match ?run with (_, _) => _ end] =>
             lazymatch run with
             | create_preset_package _ _ _ _ _ => idtac
             | create_texture_package _ _ _ _ _ => idtac
             | create_combined_package _ _ _ _ _ => idtac
             | create_installation_guide _ _ => idtac
             end;
             destruct run as [[?|?] ?]
         end; reflexivity.
Qed.












(** When a regular file bears the name of the output directory, [main]
    raises [FileExistsError] at the construction of the packager and
    leaves the world as it was. *)
Theorem main_refuses_a_file_as_output_directory (w : World) (c : content) :
  node_at (fs w) (cwd w) = Some Dir ->
  fs w !! (cwd w ++ ["release-assets"])%list = Some (File c) ->
  main w = (Raise FileExistsError, w).
Proof.
  intros Hcwd Hfile. rewrite main_as_sequence.
  unfold bind, __init__, bind, mkdir_exist_ok.
  change (output_dir (mkPackager (parse_path "release-assets")))
    with ["release-assets"].
  assert (resolve w ["release-assets"]
          = Return (cwd w ++ ["release-assets"])%list) as ->.
  { unfold resolve. simpl. now rewrite Hcwd. }
  now rewrite node_at_snoc, Hfile.
Qed.

Lemma main_refuses_a_file_as_output_directory_witness :
  main blocked_world = (Raise FileExistsError, blocked_world).
Proof.
  apply (main_refuses_a_file_as_output_directory blocked_world
           (Text "not a directory")).
  - vm_compute. reflexivity.
  - vm_compute. reflexivity.
Defined.

End WholeRun.

(** ** Failures *)

Section Failures.
Import Py Json Fs PackageRelease Spec Behaviour.







End Failures.

(** ** The shape of the returned path and of the descriptor text *)

Section Shapes.
Import Py Json Fs PackageRelease Spec Behaviour.

Lemma split_slash_not_nil (s : string) :
  exists h t, split_slash s = h :: t.
Proof.
  induction s as [|c s (h & t & IH)]; simpl; [eauto|].
  destruct (Ascii.eqb c "/"); [eauto|]. rewrite IH. eauto.
Qed.

Lemma components_autovibez (s : string) :
  exists tail rest,
    components ("autovibez-" ++ s) = ("autovibez-" ++ tail) :: rest.
Proof.
  destruct (split_slash_not_nil s) as (h & t & Hs).
  exists h, (List.filter is_name t).
  unfold components. simpl. rewrite Hs. reflexivity.
Qed.

(** The returned path always continues the output directory: whatever the
    name, slashes included, the first part after the output directory
    starts with [autovibez-], so the file name never replaces the output
    directory by an absolute path. *)
Theorem returned_path_continues_output_dir (self : ReleaseAssetPackager)
    (call : packaging_call) (w w' : World) (p : Path) :
  invoke self call w = (Return p, w') ->
  exists tail rest,
    p = (output_dir self ++ ("autovibez-" ++ tail)%string :: rest)%list.
Proof.
  intros H. apply invoke_return in H as [-> _].
  unfold joinpath. rewrite package_name_relative.
  destruct call as [n u d | n u d | k n d].
  - destruct (components_autovibez ("presets-" ++ n ++ ".zip"))
      as (tail & rest & E).
    exists tail, rest.
    change (package_name (Preset n u d))
      with ("autovibez-" ++ "presets-" ++ n ++ ".zip").
    now rewrite E.
  - destruct (components_autovibez ("textures-" ++ n ++ ".zip"))
      as (tail & rest & E).
    exists tail, rest.
    change (package_name (Texture n u d))
      with ("autovibez-" ++ "textures-" ++ n ++ ".zip").
    now rewrite E.
  - destruct (components_autovibez (n ++ "-complete.zip"))
      as (tail & rest & E).
    exists tail, rest.
    change (package_name (Combined k n d))
      with ("autovibez-" ++ n ++ "-complete.zip").
    now rewrite E.
Qed.

Lemma returned_path_continues_output_dir_witness :
  (exists tail rest,
      ["release-assets"; "autovibez-presets-x"; ".."; ".."; "y.zip"]
      = (output_dir Sample.packager
           ++ ("autovibez-" ++ tail)%string :: rest)%list)
  /\ Forall
       (fun call =>
          fst (invoke Sample.packager call Sample.world)
          = Return ["release-assets"; package_name call]
          /\ exists tail rest,
              ["release-assets"; package_name call]
              = (output_dir Sample.packager
                   ++ ("autovibez-" ++ tail)%string :: rest)%list)
       [Sample.cream; Sample.textures; Sample.presets_complete].
Proof.
  split.
  - apply (returned_path_continues_output_dir Sample.packager
             Sample.traversal Sample.nested_world
             (snd (invoke Sample.packager Sample.traversal
                     Sample.nested_world))).
    apply run_of_outcome. vm_compute. reflexivity.
  - for_each_call
      ltac:(split;
            [ vm_compute; reflexivity
            | match goal with
              | |- context [package_name ?call] =>
                  apply (returned_path_continues_output_dir Sample.packager
                           call Sample.world
                           (snd (invoke Sample.packager call Sample.world)));
                  apply run_of_outcome; vm_compute; reflexivity
              end ]).
Defined.

Lemma ascii_safe_app (a b : string) :
  ascii_safe (a ++ b) = ascii_safe a && ascii_safe b.
Proof.
  induction a as [|c a IH]; simpl; [reflexivity|].
  now rewrite IH, andb_assoc.
Qed.

Lemma ascii_safe_escape_char (c : ascii) :
  ascii_safe (escape_char c) = true.
Proof.
  destruct c as [b0 b1 b2 b3 b4 b5 b6 b7].
  destruct b0, b1, b2, b3, b4, b5, b6, b7; reflexivity.
Qed.

Lemma ascii_safe_escape (s : string) : ascii_safe (escape s) = true.
Proof.
  induction s as [|c s IH]; simpl; [reflexivity|].
  now rewrite ascii_safe_app, ascii_safe_escape_char, IH.
Qed.

Lemma ascii_safe_encode_str (s : string) : ascii_safe (encode_str s) = true.
Proof.
  unfold encode_str. simpl.
  now rewrite ascii_safe_app, ascii_safe_escape.
Qed.

Lemma ascii_safe_spaces (n : nat) : ascii_safe (spaces n) = true.
Proof. induction n as [|n IH]; simpl; [reflexivity | exact IH]. Qed.

Lemma ascii_safe_newline_indent (indent level : nat) :
  ascii_safe (newline_indent indent level) = true.
Proof. unfold newline_indent. simpl. apply ascii_safe_spaces. Qed.

Lemma ascii_safe_join {A : Type} (f : A -> string) (sep : string)
    (xs : list A) :
  ascii_safe sep = true ->
  Forall (fun x => ascii_safe (f x) = true) xs ->
  ascii_safe (join sep (map f xs)) = true.
Proof.
  intros Hsep H. induction H as [|x xs Hx Hxs IH]; [reflexivity|].
  destruct xs as [|y ys]; [exact Hx|].
  change (join sep (map f (x :: y :: ys)))
    with (f x ++ sep ++ join sep (map f (y :: ys))).
  now rewrite !ascii_safe_app, Hx, Hsep, IH.
Qed.

(** [json.dumps] writes 7-bit text: printable ASCII and line feeds. *)
Lemma ascii_safe_iterencode (v : pyval) :
  forall indent level, ascii_safe (iterencode indent level v) = true.
Proof.
  induction v as [s | items IH | items IH] using pyval_induction;
    intros indent level.
  - apply ascii_safe_encode_str.
  - destruct items as [|x xs]; [reflexivity|].
    change (iterencode indent level (PList (x :: xs)))
      with ("[" ++ newline_indent indent (S level)
              ++ join ("," ++ newline_indent indent (S level))
                   (map (iterencode indent (S level)) (x :: xs))
              ++ newline_indent indent level ++ "]").
    rewrite !ascii_safe_app, !ascii_safe_newline_indent.
    rewrite ascii_safe_join; [reflexivity | |].
    + rewrite ascii_safe_app, ascii_safe_newline_indent. reflexivity.
    + eapply Forall_impl; [exact IH|]. intros a Ha. apply Ha.
  - destruct items as [|kv kvs]; [reflexivity|].
    change (iterencode indent level (PDict (kv :: kvs)))
      with ("{" ++ newline_indent indent (S level)
              ++ join ("," ++ newline_indent indent (S level))
                   (map (fun kv => encode_str (fst kv) ++ ": "
                            ++ iterencode indent (S level) (snd kv))
                      (kv :: kvs))
              ++ newline_indent indent level ++ "}").
    rewrite !ascii_safe_app, !ascii_safe_newline_indent.
    rewrite ascii_safe_join; [reflexivity | |].
    + rewrite ascii_safe_app, ascii_safe_newline_indent. reflexivity.
    + eapply Forall_impl; [exact IH|]. intros a Ha. cbv beta.
      rewrite !ascii_safe_app, ascii_safe_encode_str, Ha. reflexivity.
Qed.

(** Whatever characters the name, the source URL, the description and the
    package names hold, the [metadata.json] entry of a written archive is
    7-bit text: printable ASCII characters and line feeds only. *)
Theorem metadata_text_is_ascii (self : ReleaseAssetPackager)
    (call : packaging_call) (w w' : World) (p : Path) :
  invoke self call w = (Return p, w') ->
  exists text,
    read_entry w' p "metadata.json" = Some text
    /\ ascii_safe text = true.
Proof.
  intros H. apply invoke_archive in H.
  exists (dumps (metadata_of call (isoformat (clock w))) 2). split.
  - unfold read_entry. rewrite H. reflexivity.
  - apply ascii_safe_iterencode.
Qed.

Lemma metadata_text_is_ascii_witness :
  Forall
    (fun call =>
       fst (invoke Sample.packager call Sample.world)
       = Return ["release-assets"; package_name call]
       /\ exists text,
           read_entry (snd (invoke Sample.packager call Sample.world))
             ["release-assets"; package_name call] "metadata.json"
           = Some text
           /\ ascii_safe text = true)
    [ Combined [String "233" "t"; String "009" "tab"]
        "caf" (String "200" (String "001" "raw"));
      Preset "caf" (String "233" "t") (String "200" (String "001" "raw"));
      Texture "caf" (String "233" "t") (String "200" (String "001" "raw")) ].
Proof.
  for_each_call
    ltac:(split;
          [ vm_compute; reflexivity
          | eapply (metadata_text_is_ascii Sample.packager _ Sample.world);
            apply run_of_outcome; vm_compute; reflexivity ]).
Defined.

Lemma split_slash_suffix (s suffix : string) :
  has_slash suffix = false ->
  exists init h,
    split_slash s = (init ++ [h])%list
    /\ split_slash (s ++ suffix) = (init ++ [(h ++ suffix)%string])%list.
Proof.
  intros Hs. induction s as [|c s (init & h & IH1 & IH2)].
  - exists [], EmptyString. split; [reflexivity|].
    simpl. now apply split_slash_no_slash.
  - simpl. destruct (Ascii.eqb c "/").
    + exists (EmptyString :: init), h. rewrite IH1, IH2. split; reflexivity.
    + rewrite IH1, IH2. destruct init as [|x init]; simpl.
      * exists [], (String c h). split; reflexivity.
      * exists (String c x :: init), h. split; reflexivity.
Qed.

Lemma zip_name_is_a_name (h : string) :
  is_name (h ++ ".zip") = true
  /\ String.eqb (h ++ ".zip") "/" = false
  /\ String.eqb (h ++ ".zip") ".." = false.
Proof.
  assert (forall t, String.length t < 4 -> String.eqb (h ++ ".zip") t = false)
    as Hshort.
  { intros t Ht. apply String.eqb_neq. intros E.
    apply (f_equal String.length) in E. rewrite length_append in E.
    simpl in E. lia. }
  unfold is_name. rewrite !Hshort by (simpl; lia). repeat split.
Qed.

(** Every package file name is some text followed by [.zip]. *)
Lemma package_name_zip (call : packaging_call) :
  exists stem, package_name call = stem ++ ".zip".
Proof.
  destruct call as [n u d | n u d | k n d].
  - exists ("autovibez-presets-" ++ n). unfold package_name.
    now rewrite append_assoc.
  - exists ("autovibez-textures-" ++ n). unfold package_name.
    now rewrite append_assoc.
  - exists ("autovibez-" ++ n ++ "-complete"). unfold package_name.
    now rewrite !append_assoc.
Qed.

Lemma components_zip (stem : string) :
  exists init h,
    components (stem ++ ".zip") = (init ++ [(h ++ ".zip")%string])%list.
Proof.
  destruct (split_slash_suffix stem ".zip" eq_refl) as (init & h & _ & E).
  exists (List.filter is_name init), h.
  unfold components. rewrite E, List.filter_app. simpl.
  destruct (zip_name_is_a_name h) as (-> & _). reflexivity.
Qed.

Lemma zip_is_not_the_guide (h : string) :
  h ++ ".zip" <> "INSTALL_ASSETS.md".
Proof.
  intros E.
  do 13 (destruct h as [|? h]; [discriminate E|]; injection E as _ E).
  repeat (destruct h as [|? h]; [discriminate E|];
          try discriminate E; injection E as _ E).
Qed.

(** Whatever the name, slashes included, the file that a packaging
    operation writes has a name that ends in [.zip]; so no file called
    [INSTALL_ASSETS.md], in any directory, is ever touched by a packaging
    operation. *)
Theorem archive_file_name_ends_in_zip (self : ReleaseAssetPackager)
    (call : packaging_call) (w w' : World) (p : Path) :
  invoke self call w = (Return p, w') ->
  (exists d stem archive,
      resolve w p = Return (d ++ [(stem ++ ".zip")%string])%list
      /\ fs w' = <[(d ++ [(stem ++ ".zip")%string])%list := File archive]>
                   (fs w))
  /\ forall d, fs w' !! (d ++ ["INSTALL_ASSETS.md"])%list
               = fs w !! (d ++ ["INSTALL_ASSETS.md"])%list.
Proof.
  intros H. apply invoke_return in H as (Hp & t & Hres & Hnode & ->).
  destruct (package_name_zip call) as (stem & Hstem).
  destruct (components_zip stem) as (init & h & Hc).
  assert (exists d, t = (d ++ [(h ++ ".zip")%string])%list) as (d & ->).
  { subst p. unfold joinpath in Hres.
    rewrite package_name_relative, Hstem, Hc, app_assoc in Hres.
    destruct (zip_name_is_a_name h) as (_ & Hroot & Hup).
    apply resolve_child in Hres as (d & _ & _ & ->); eauto. }
  split.
  - exists d, h. eexists. split; [exact Hres | reflexivity].
  - intros d'. simpl. apply lookup_insert_ne. intros E.
    apply app_inj_tail in E as [_ E]. now apply zip_is_not_the_guide in E.
Qed.

Lemma archive_file_name_ends_in_zip_witness :
  ((exists d stem archive,
       resolve Sample.nested_world
         ["release-assets"; "autovibez-presets-x"; ".."; ".."; "y.zip"]
       = Return (d ++ [(stem ++ ".zip")%string])%list
       /\ fs (snd (invoke Sample.packager Sample.traversal
                     Sample.nested_world))
          = <[(d ++ [(stem ++ ".zip")%string])%list := File archive]>
              (fs Sample.nested_world))
   /\ forall d,
       fs (snd (invoke Sample.packager Sample.traversal Sample.nested_world))
         !! (d ++ ["INSTALL_ASSETS.md"])%list
       = fs Sample.nested_world !! (d ++ ["INSTALL_ASSETS.md"])%list)
  /\ Forall
       (fun call =>
          fst (invoke Sample.packager call Sample.world)
          = Return ["release-assets"; package_name call]
          /\ (exists d stem archive,
                 resolve Sample.world ["release-assets"; package_name call]
                 = Return (d ++ [(stem ++ ".zip")%string])%list
                 /\ fs (snd (invoke Sample.packager call Sample.world))
                    = <[(d ++ [(stem ++ ".zip")%string])%list
                        := File archive]> (fs Sample.world))
          /\ forall d,
              fs (snd (invoke Sample.packager call Sample.world))
                !! (d ++ ["INSTALL_ASSETS.md"])%list
              = fs Sample.world !! (d ++ ["INSTALL_ASSETS.md"])%list)
       [Sample.cream; Sample.textures; Sample.presets_complete].
Proof.
  split.
  - apply (archive_file_name_ends_in_zip Sample.packager Sample.traversal
             Sample.nested_world).
    apply run_of_outcome. vm_compute. reflexivity.
  - for_each_call
      ltac:(split;
            [ vm_compute; reflexivity
            | eapply (archive_file_name_ends_in_zip Sample.packager _
                        Sample.world);
              apply run_of_outcome; vm_compute; reflexivity ]).
Defined.

End Shapes.
